(** * W2V2Distil: the distillation training module of train.py

    A shallow embedding of [src/train.py] (class [W2V2Distil] and the
    script body) together with the properties of its loss composer,
    configuration resolver and step functions.

    Conventions of the embedding.
    - Python exceptions are values of [exn]; a computation that may raise
      has type [result A].
    - Calls to collaborators whose effect matters for a property (loading
      the teacher, constructing the student, decoding, metric
      accumulation, CTC) are recorded as [event]s in a trace that is
      threaded through the monad [M]; the trace survives an exception.
    - Tensors are nested lists of exact rationals; the transcendental
      kernels of torch ([cosine_similarity], [logsigmoid], [log_softmax],
      [ctc_loss]) and the models themselves are parameters.
    - Python [str] is [string]; iterating a [str] yields its one-character
      strings. *)

From Stdlib Require Import ZArith QArith Qabs String Ascii List Lia.
From stdpp Require Import base option list gmap strings pretty.

Local Open Scope string_scope.
Local Open Scope list_scope.
Local Open Scope Z_scope.

(** ** Python runtime: exceptions, results, traced computations *)

Module Py.

Inductive exn : Type :=
  | TypeError
  | AttributeError (attr : string)
  | KeyError (key : string)
  | IndexError
  | RuntimeError
  | ZeroDivisionError
  | EvalError
  | ExternalError (who : string).

Inductive result (A : Type) : Type :=
  | Ok (a : A)
  | Raise (e : exn).
Arguments Ok {A} a.
Arguments Raise {A} e.

Definition rbind {A B} (r : result A) (k : A -> result B) : result B :=
  match r with
  | Ok a => k a
  | Raise e => Raise e
  end.

(** List comprehension [[f x for x in xs]]: left to right, the first
    exception aborts the whole comprehension. *)
Fixpoint comprehension {A B} (f : A -> result B) (xs : list A) : result (list B) :=
  match xs with
  | [] => Ok []
  | x :: xs' =>
      rbind (f x) (fun y =>
      rbind (comprehension f xs') (fun ys => Ok (y :: ys)))
  end.

(** [d[k]] on a dict with [str] keys. *)
Definition getitem {V} (d : gmap string V) (k : string) : result V :=
  match d !! k with
  | Some v => Ok v
  | None => Raise (KeyError k)
  end.

(** [l[i]] on a list: negative indices count from the end. *)
Definition list_getitem {A} (l : list A) (i : Z) : result A :=
  let n := Z.of_nat (length l) in
  let j := if i <? 0 then i + n else i in
  if (j <? 0) || (n <=? j) then Raise IndexError
  else match l !! Z.to_nat j with
       | Some x => Ok x
       | None => Raise IndexError
       end.

(** [for char in label]: the one-character strings of a [str] (one
    byte per character, as in the upper-case ASCII transcripts of
    LibriSpeech). *)
Definition chars (s : string) : list string :=
  map (fun c => String c EmptyString) (list_ascii_of_string s).

End Py.
Export Py.

(** ** Observable collaborator calls *)

Inductive event : Type :=
  | EvLoadMetric (name : string)
  | EvLoadTeacher (name : string)
  | EvFreezeTeacher
  | EvDumpYaml
  | EvConstructStudent
  | EvBuildDataset
  | EvTeacherForward
  | EvStudentForward
  | EvCtcLogSoftmax
  | EvCtcTargetGT
  | EvCtcTargetTeacher
  | EvCtcLoss
  | EvArgmaxLogits
  | EvDecode
  | EvMetricAddBatch (metric : string)
  | EvLog (name : string)
  | EvEvalLearningRate
  | EvGetScheduler (num_warmup_steps num_training_steps : Z)
  | EvBuildOptimizer.

(** A traced computation: the trace so far goes in, the extended trace
    comes out next to the result or the exception. *)
Definition M (A : Type) : Type := list event -> list event * result A.

Definition ret {A} (a : A) : M A := fun tr => (tr, Ok a).
Definition raise {A} (e : exn) : M A := fun tr => (tr, Raise e).
Definition emit (ev : event) : M unit := fun tr => (tr ++ [ev], Ok tt).
Definition lift {A} (r : result A) : M A := fun tr => (tr, r).

Definition bind {A B} (m : M A) (k : A -> M B) : M B :=
  fun tr =>
    match m tr with
    | (tr', Ok a) => k a tr'
    | (tr', Raise e) => (tr', Raise e)
    end.

#[global] Instance M_ret : MRet M := @ret.
#[global] Instance M_bind : MBind M := fun A B k m => bind m k.
#[global] Instance result_ret : MRet result := @Ok.
#[global] Instance result_bind : MBind result := fun A B k r => rbind r k.

(** ** The fixed CTC alphabet (train.py, lines 41-45) *)

Definition char_dict : gmap string Z :=
  list_to_map
    [("<s>", 0); ("<pad>", 1); ("</s>", 2); ("<unk>", 3); (" ", 4); ("E", 5);
     ("T", 6); ("A", 7); ("O", 8); ("N", 9); ("I", 10); ("H", 11); ("S", 12);
     ("R", 13); ("D", 14); ("L", 15); ("U", 16); ("M", 17); ("W", 18); ("C", 19);
     ("F", 20); ("G", 21); ("Y", 22); ("P", 23); ("B", 24); ("V", 25); ("K", 26);
     ("'", 27); ("X", 28); ("J", 29); ("Q", 30); ("Z", 31)].

(** ** Ground-truth CTC targets (calculate_loss, lines 239-241) *)

(** [torch.tensor([self.char_dict[char] for char in label])] *)
Definition label_tokens (label : string) : result (list Z) :=
  comprehension (getitem char_dict) (chars label).

(** [torch.cat]: a one-dimensional concatenation; an empty list of
    tensors is rejected by torch (with [RuntimeError] in the releases
    of the repository's time). *)
Definition torch_cat {A} (ts : list (list A)) : result (list A) :=
  match ts with
  | [] => Raise RuntimeError
  | _ => Ok (concat ts)
  end.

(** Lines 239-241: the concatenated target and the per-example lengths. *)
Definition gt_target (labels : list string) : result (list Z * list nat) :=
  gt_tokens ← comprehension label_tokens labels;
  target ← torch_cat gt_tokens;
  mret (target, map (@length Z) gt_tokens).

(** ** Tensors and the torch operations used by the loss composer *)

Module Torch.

Definition tensor1 : Type := list Q.
Definition tensor2 : Type := list (list Q).
Definition tensor3 : Type := list (list (list Q)).
Definition tensor4 : Type := list (list (list (list Q))).

(** Shapes; [None] for a nested list that is not rectangular (no tensor
    has such a value). *)
Definition shape1 (t : tensor1) : option (list nat) := Some [length t].

Definition shape_of_rows {A} (shape : A -> option (list nat)) (rank : nat)
    (rows : list A) : option (list nat) :=
  match rows with
  | [] => Some (0%nat :: repeat 0%nat rank)
  | r :: rest =>
      match shape r with
      | Some s =>
          if forallb (fun r' => bool_decide (shape r' = Some s)) rest
          then Some (length rows :: s) else None
      | None => None
      end
  end.

Definition shape2 : tensor2 -> option (list nat) := shape_of_rows shape1 1.
Definition shape3 : tensor3 -> option (list nat) := shape_of_rows shape2 2.
Definition shape4 : tensor4 -> option (list nat) := shape_of_rows shape3 3.

(** [t.transpose(0, 1)]: exchange the two outer dimensions. *)
Fixpoint transpose01 {A} (rows : list (list A)) : list (list A) :=
  match rows with
  | [] => []
  | [r] => map (fun x => [x]) r
  | r :: rs => zip_with cons r (transpose01 rs)
  end.

(** [torch.stack(ts, dim=1)] of tensors of three dimensions: the list
    must be non-empty and all its tensors of one shape. *)
Definition stack_dim1 (ts : list tensor3) : result tensor4 :=
  match ts with
  | [] => Raise RuntimeError
  | t :: rest =>
      match shape3 t with
      | Some s =>
          if forallb (fun t' => bool_decide (shape3 t' = Some s)) rest
          then Ok (transpose01 ts) else Raise RuntimeError
      | None => Raise RuntimeError
      end
  end.

Definition sumQ (xs : list Q) : Q := foldl Qplus 0%Q xs.

(** The mean of all listed entries. torch yields nan for no entry at
    all; here that quotient is 0. *)
Definition meanQ (xs : list Q) : Q :=
  (sumQ xs / inject_Z (Z.of_nat (length xs)))%Q.

Definition flat2 (t : tensor2) : list Q := concat t.
Definition flat3 (t : tensor3) : list Q := concat (map flat2 t).
Definition flat4 (t : tensor4) : list Q := concat (map flat3 t).

(** [F.l1_loss(input, target, reduction="none")]. The two tensors must
    have one shape; shapes that torch would broadcast are rejected
    here. *)
Definition l1_loss_none (input target : tensor4) : result tensor4 :=
  match shape4 input with
  | Some s =>
      if bool_decide (shape4 target = Some s)
      then Ok (zip_with (zip_with (zip_with (zip_with
                 (fun a b => Qabs (a - b)%Q)))) input target)
      else Raise RuntimeError
  | None => Raise RuntimeError
  end.

(** [t.mean((0, 2, 3))] of a B x N x T x D tensor: one mean per N. *)
Definition mean_023 (t : tensor4) : tensor1 :=
  map (fun layer => meanQ (flat3 layer)) (transpose01 t).

(** [t.mean((0, 2))] of a B x N x T tensor: one mean per N. *)
Definition mean_02 (t : tensor3) : tensor1 :=
  map (fun layer => meanQ (flat2 layer)) (transpose01 t).

(** Index of the first greatest entry ([argmax] along the last
    dimension). *)
Fixpoint argmax_from (best : Q) (besti i : Z) (xs : list Q) : Z :=
  match xs with
  | [] => besti
  | x :: xs' =>
      if Qle_bool x best then argmax_from best besti (i + 1) xs'
      else argmax_from x i (i + 1) xs'
  end.

Definition argmax (xs : list Q) : Z :=
  match xs with
  | [] => 0
  | x :: xs' => argmax_from x 0 1 xs'
  end.

Definition argmax_last (t : tensor3) : list (list Z) := map (map argmax) t.

End Torch.
Export Torch.

(** ** Python values that the loss variables can hold *)

Inductive pyval : Type :=
  | PNone
  | PNum (q : Q)
  | PTensor0 (x : Q)
  | PTensor1 (v : tensor1)
  | PList (l : list Q).

(** [a + b] *)
Definition py_add (a b : pyval) : result pyval :=
  match a, b with
  | PNum x, PNum y => Ok (PNum (x + y)%Q)
  | PNum x, PTensor0 y | PTensor0 x, PNum y | PTensor0 x, PTensor0 y =>
      Ok (PTensor0 (x + y)%Q)
  | PNum x, PTensor1 v | PTensor0 x, PTensor1 v =>
      Ok (PTensor1 (map (fun y => (x + y)%Q) v))
  | PTensor1 v, PNum y | PTensor1 v, PTensor0 y =>
      Ok (PTensor1 (map (fun x => (x + y)%Q) v))
  | PTensor1 u, PTensor1 v =>
      if (length u =? length v)%nat then Ok (PTensor1 (zip_with Qplus u v))
      else match u, v with
           | [x], _ => Ok (PTensor1 (map (fun y => (x + y)%Q) v))
           | _, [y] => Ok (PTensor1 (map (fun x => (x + y)%Q) u))
           | _, _ => Raise RuntimeError
           end
  | PList l1, PList l2 => Ok (PList (l1 ++ l2))
  | _, _ => Raise TypeError
  end.

(** [a * b] for a number on the left, as in [cosine_weight * sim_loss]. *)
Definition py_mul (a b : pyval) : result pyval :=
  match a, b with
  | PNum x, PNum y => Ok (PNum (x * y)%Q)
  | PNum x, PTensor0 y => Ok (PTensor0 (x * y)%Q)
  | PNum x, PTensor1 v => Ok (PTensor1 (map (fun y => (x * y)%Q) v))
  | _, _ => Raise TypeError
  end.

(** [torch.add(input, other)]: [input] must be a tensor and [other] a
    tensor or a number. *)
Definition torch_add (input other : pyval) : result pyval :=
  match input, other with
  | (PTensor0 _ | PTensor1 _), (PTensor0 _ | PTensor1 _ | PNum _) =>
      py_add input other
  | _, _ => Raise TypeError
  end.

(** [obj.append(x)]: only a list has the method. *)
Definition py_append (obj : pyval) (x : Q) : result pyval :=
  match obj with
  | PList l => Ok (PList (l ++ [x]))
  | _ => Raise (AttributeError "append")
  end.

(** [for l in obj]: the entries of a one-dimensional tensor or list. *)
Definition py_iter (obj : pyval) : result (list Q) :=
  match obj with
  | PTensor1 v => Ok v
  | PList l => Ok l
  | _ => Raise TypeError
  end.

(** [sum(xs)]: Python starts from the integer 0 and adds left to right. *)
Fixpoint py_sum_from (acc : pyval) (xs : list pyval) : result pyval :=
  match xs with
  | [] => Ok acc
  | x :: xs' => acc' ← py_add acc x; py_sum_from acc' xs'
  end.

Definition py_sum (xs : list pyval) : result pyval := py_sum_from (PNum 0) xs.

(** ** Configuration data *)

(** A value of the YAML file or of a model configuration attribute. *)
Inductive cfg_value : Type :=
  | VNull
  | VBool (b : bool)
  | VInt (z : Z)
  | VNum (q : Q)
  | VStr (s : string)
  | VInts (l : list Z).

(** The [train] section of the YAML file. *)
Record train_cfg : Type := {
  batch_size : Z;
  gpus : Z;
  num_epochs : Z;
  accumulate_grad_batches : Z;
  learning_rate : string;
  warmup_ratio : Q;
  cosine_weight : Q;
  monitor_losses : bool;
  use_gt_for_ctc : bool
}.

(** The [data] section of the YAML file. *)
Record data_cfg : Type := {
  bucketing_path : string;
  libri_root : string;
  train_set : list string;
  test_set : list string
}.

Record yaml_cfg : Type := {
  teacher : string;                       (* ['teacher']['teacher_model'] *)
  distiller : gmap string cfg_value;
  train : train_cfg;
  data : data_cfg;
  optimizer : gmap string cfg_value
}.

(** ** Forward results and batches *)

(** [teacher_results]: key ["x"] and, for each layer, the first
    component of its entry of ["layer_results"] (T x B x D). *)
Record teacher_results : Type := {
  t_x : tensor3;
  t_layer_results : list tensor3
}.

(** [student_results]: keys ["x"], ["projections"] and, when the student
    provides it, ["encoder_out"]. *)
Record student_results : Type := {
  s_x : tensor3;
  s_projections : tensor4;
  s_encoder_out : option tensor3
}.

(** A collated batch: the arguments of [forward] and, for a labelled
    corpus, the transcripts under ["labels"]. *)
Record batch : Type := {
  b_x : tensor2;
  b_padding_mask : option (list (list bool));
  b_labels : option (list string)
}.

(** ** Collaborators outside train.py

    The modules [utils], [modules.model], torch's transcendental kernels,
    the s3prl optimizer and Python's [eval] are taken as given.
    [DataLoader dataset num_workers] and [AdamW lr] stand for the
    argument checks of the two constructors, and
    [int_of_float_product n r] for [int(n * r)] with the floating-point
    product of Python. *)
Record Collaborators : Type := {
  teacher_t : Type;
  student_t : Type;
  dataset_t : Type;
  load_metric : string -> result unit;
  load_model_and_config :
    string -> result (teacher_t * gmap string cfg_value * bool);
  CustomStudentModelConfig : gmap string cfg_value;
  get_all_attributes : gmap string cfg_value -> list string;
  dump_yaml : gmap string cfg_value -> yaml_cfg -> result unit;
  CustomStudentModel : gmap string cfg_value -> teacher_t -> result student_t;
  pred_layer_id : student_t -> list Z;
  LibriDataset : Z -> string -> list string -> string -> result dataset_t;
  dataset_len : dataset_t -> Z;
  DataLoader : dataset_t -> Z -> result unit;
  AdamW : Q -> result unit;
  int_of_float_product : Z -> Q -> Z;
  extract_features :
    teacher_t -> tensor2 -> option (list (list bool)) -> result teacher_results;
  student_call :
    student_t -> tensor2 -> option (list (list bool)) -> result student_results;
  cosine_similarity : list Q -> list Q -> Q;
  logsigmoid : Q -> Q;
  log_softmax : tensor3 -> tensor3;
  ctc_loss : tensor3 -> list Z -> list nat -> list nat -> result Q;
  ctc_converter : list Z -> list Z;
  decoder_decode : list Z -> string;
  py_eval : string -> result Q;
  get_optimizer : student_t -> Z -> gmap string cfg_value -> result unit
}.

(** Events that compute or consume a CTC-related quantity. *)
Definition ctc_related (ev : event) : bool :=
  match ev with
  | EvCtcLogSoftmax | EvCtcTargetGT | EvCtcTargetTeacher | EvCtcLoss
  | EvArgmaxLogits | EvDecode | EvMetricAddBatch _ => true
  | _ => false
  end.

(** ** Config resolver *)

(** Lines 55-57: copy every teacher attribute whose name is in the
    student's schema. *)
Definition copy_teacher_attrs (target_keys : list string)
    (teacher_config student_config : gmap string cfg_value)
    : gmap string cfg_value :=
  map_fold
    (fun k v sc => if bool_decide (k ∈ target_keys) then <[k := v]> sc else sc)
    student_config teacher_config.

(** Lines 292-310. *)
Definition update_student_config (task_agnostic : bool)
    (cfg : gmap string cfg_value) (student_config : gmap string cfg_value)
    : result (gmap string cfg_value) :=
  (* Model spec related *)
  v ← getitem cfg "encoder_layers";
  let student_config := <["encoder_layers" := v]> student_config in
  v ← getitem cfg "enable_tr_layer";
  let student_config := <["enable_tr_layer" := v]> student_config in
  v ← getitem cfg "type_of_tr_layer";
  let student_config := <["type_of_tr_layer" := v]> student_config in
  v ← getitem cfg "tr_layer_index";
  let student_config := <["tr_layer_floor" := v]> student_config in
  (* Initialization related *)
  v ← getitem cfg "init_conv_layers";
  let student_config := <["init_conv_layers" := v]> student_config in
  v ← getitem cfg "init_encoder_layers";
  let student_config := <["init_encoder_layers" := v]> student_config in
  (* Prediction head related *)
  v ← getitem cfg "pred_head_inter_dim";
  let student_config := <["proj_head_inter_dim" := v]> student_config in
  v ← getitem cfg "pred_head_final_dim";
  let student_config := <["proj_head_final_dim" := v]> student_config in
  v ← getitem cfg "pred_layer_id";
  let student_config := <["pred_layer_id" := v]> student_config in
  mret (<["teacher_task_agnostic" := VBool task_agnostic]> student_config).

(** The keys that [update_student_config] reads, in the order of its
    reads, each with the attribute it assigns. *)
Definition override_table : list (string * string) :=
  [("encoder_layers", "encoder_layers");
   ("enable_tr_layer", "enable_tr_layer");
   ("type_of_tr_layer", "type_of_tr_layer");
   ("tr_layer_index", "tr_layer_floor");
   ("init_conv_layers", "init_conv_layers");
   ("init_encoder_layers", "init_encoder_layers");
   ("pred_head_inter_dim", "proj_head_inter_dim");
   ("pred_head_final_dim", "proj_head_final_dim");
   ("pred_layer_id", "pred_layer_id")].

Definition required_keys : list string := map fst override_table.

(** ** class W2V2Distil *)

Section W2V2Distil.

Context (E : Collaborators).

(** The fields of [self] that the methods below read. *)
Record W2V2Distil : Type := {
  yaml_cfg_of : yaml_cfg;
  teacher_model : teacher_t E;
  task_agnostic : bool;
  student_config : gmap string cfg_value;
  student_model : student_t E;
  train_data : dataset_t E;
  eval_data : dataset_t E;
  test_data : dataset_t E
}.

(** Lines 53-63 of [__init__]: the student configuration starts from
    [CustomStudentModelConfig()], takes the teacher's attributes that its
    schema names, then the distiller section's overrides. *)
Definition resolve_student_config (teacher_config : gmap string cfg_value)
    (task_agnostic : bool) (distiller_cfg : gmap string cfg_value)
    : result (gmap string cfg_value) :=
  let student_config := CustomStudentModelConfig E in
  let target_keys := get_all_attributes E student_config in
  let student_config :=
    copy_teacher_attrs target_keys teacher_config student_config in
  update_student_config task_agnostic distiller_cfg student_config.

(** Lines 28-63 of [__init__]: metrics, teacher, resolved student
    configuration. The collator, the decoder and the CTC sequence
    converter of lines 33-39 are plain objects that nothing below depends
    on. *)
Definition load_and_resolve (cfg : yaml_cfg)
    : M (teacher_t E * gmap string cfg_value * bool) :=
  emit (EvLoadMetric "wer");;
  lift (load_metric E "wer");;
  emit (EvLoadMetric "cer");;
  lift (load_metric E "cer");;
  (* Load teacher model *)
  emit (EvLoadTeacher (teacher cfg));;
  '(tm, teacher_config, ta) ← lift (load_model_and_config E (teacher cfg));
  emit EvFreezeTeacher;;
  (* Assign more configs about student compares to teacher *)
  student_config ← lift (resolve_student_config teacher_config ta (distiller cfg));
  mret (tm, student_config, ta).

(** [__init__] (lines 28-103). *)
Definition init (cfg : yaml_cfg) : M W2V2Distil :=
  '(tm, student_config, ta) ← load_and_resolve cfg;
  emit EvDumpYaml;;
  lift (dump_yaml E student_config cfg);;
  (* Model Initialize *)
  emit EvConstructStudent;;
  sm ← lift (CustomStudentModel E student_config tm);
  let bs := batch_size (train cfg) in
  let data_cfg := data cfg in
  emit EvBuildDataset;;
  trd ← lift (LibriDataset E bs (bucketing_path data_cfg) (train_set data_cfg)
                (libri_root data_cfg));
  emit EvBuildDataset;;
  evd ← lift (LibriDataset E bs (bucketing_path data_cfg) ["dev-clean"]
                (libri_root data_cfg));
  emit EvBuildDataset;;
  ted ← lift (LibriDataset E bs (bucketing_path data_cfg) (test_set data_cfg)
                (libri_root data_cfg));
  mret {| yaml_cfg_of := cfg; teacher_model := tm; task_agnostic := ta;
          student_config := student_config; student_model := sm;
          train_data := trd; eval_data := evd; test_data := ted |}.

(** [forward] (lines 105-131). *)
Definition forward (self : W2V2Distil) (x : tensor2)
    (padding_mask : option (list (list bool)))
    : M (student_results * teacher_results) :=
  emit EvTeacherForward;;
  teacher_results ← lift (extract_features E (teacher_model self) x padding_mask);
  emit EvStudentForward;;
  student_results ← lift (student_call E (student_model self) x padding_mask);
  mret (student_results, teacher_results).

(** [-F.logsigmoid(F.cosine_similarity(proj, target, dim=-1))]: the
    kernels applied along the innermost dimension. *)
Definition sim_loss_none (proj target : tensor4) : tensor3 :=
  zip_with (zip_with (zip_with
    (fun p t => (- logsigmoid E (cosine_similarity E p t))%Q))) proj target.

(** Lines 234-254: the CTC loss of the task-specific mode. *)
Definition ctc_branch (self : W2V2Distil) (student_results : student_results)
    (teacher_results : teacher_results) (labels : option (list string)) : M Q :=
  (* Process output for CTC loss *)
  emit EvCtcLogSoftmax;;
  let ctc_input := log_softmax E (s_x student_results) in
  '(target, target_lengths) ←
     (if use_gt_for_ctc (train (yaml_cfg_of self)) then
        (* Use Ground Truth labels instead of labels from the teacher model *)
        emit EvCtcTargetGT;;
        match labels with
        | Some labels => lift (gt_target labels)
        | None => raise TypeError
        end
      else
        emit EvCtcTargetTeacher;;
        let logits := transpose01 (t_x teacher_results) in
        let predicted_ids := argmax_last logits in
        let fused_tokens := map (ctc_converter E) predicted_ids in
        target ← lift (torch_cat fused_tokens);
        mret (target, map (@length Z) fused_tokens));
  emit EvCtcLoss;;
  lift (ctc_loss E ctc_input target
          (repeat (length ctc_input) (length (hd [] ctc_input)))
          target_lengths).

(** The values bound by lines 204-229 of [calculate_loss]. *)
Record loss_terms : Type := {
  rec_loss : pyval;
  rec_layer_loss : pyval;
  sim_loss : pyval;
  sim_layer_loss : pyval;
  total_loss : pyval
}.

(** Lines 204-229 of [calculate_loss]: regression term, cosine term and
    their weighted total. *)
Definition regression_and_cosine (self : W2V2Distil)
    (student_results : student_results) (teacher_results : teacher_results)
    : result loss_terms :=
  teacher_hiddens ←
    comprehension
      (fun i => lr ← list_getitem (t_layer_results teacher_results) i;
                mret (transpose01 lr))
      (pred_layer_id E (student_model self));
  teacher_hiddens ← stack_dim1 teacher_hiddens;   (* B x N x T x D *)
  let proj := s_projections student_results in
  let target := teacher_hiddens in
  rec_loss ← l1_loss_none proj target;
  let rec_layer_loss := PTensor1 (mean_023 rec_loss) in
  let rec_loss := PTensor0 (meanQ (flat4 rec_loss)) in
  let cosine_weight := cosine_weight (train (yaml_cfg_of self)) in
  let '(sim_loss, sim_layer_loss) :=
    if negb (Qle_bool cosine_weight 0) then
      let sim_loss := sim_loss_none proj target in
      (PTensor0 (meanQ (flat3 sim_loss)), PTensor1 (mean_02 sim_loss))
    else (PNum 0, PNone) in
  weighted ← py_mul (PNum cosine_weight) sim_loss;
  total_loss ← py_add rec_loss weighted;
  mret {| rec_loss := rec_loss; rec_layer_loss := rec_layer_loss;
          sim_loss := sim_loss; sim_layer_loss := sim_layer_loss;
          total_loss := total_loss |}.

(** [calculate_loss] (lines 202-258). *)
Definition calculate_loss (self : W2V2Distil) (student_results : student_results)
    (teacher_results : teacher_results) (labels : option (list string))
    : M (pyval * pyval) :=
  terms ← lift (regression_and_cosine self student_results teacher_results);
  losses ← lift (torch_add (rec_layer_loss terms) (sim_layer_loss terms));
  losses ←
    (if negb (task_agnostic self) then
       ctc_loss ← ctc_branch self student_results teacher_results labels;
       lift (py_append losses ctc_loss)
     else mret losses);
  mret (total_loss terms, losses).

(** [batch['labels']] *)
Definition batch_labels (b : batch) : result (list string) :=
  match b_labels b with
  | Some labels => Ok labels
  | None => Raise (KeyError "labels")
  end.

(** Lines 136-139, 150-153 and 177-180: the call of [calculate_loss]
    that the three steps share. *)
Definition call_calculate_loss (self : W2V2Distil) (b : batch)
    (student_results : student_results) (teacher_results : teacher_results)
    : M (pyval * pyval) :=
  if negb (task_agnostic self) then
    labels ← lift (batch_labels b);
    calculate_loss self student_results teacher_results (Some labels)
  else
    calculate_loss self student_results teacher_results None.

(** [self.log(f"loss{i+1}", l.item())] for [i, l] in [enumerate(losses)]. *)
Fixpoint log_losses (i : nat) (losses : list Q) : M unit :=
  match losses with
  | [] => mret tt
  | _ :: rest =>
      emit (EvLog ("loss" +:+ pretty (S i)));;
      log_losses (S i) rest
  end.

(** The call of [self] on the unpacked batch, the first line of each
    step: every key of the batch becomes a keyword argument of
    [forward], which takes [x] and [padding_mask] only; a batch that
    carries ["labels"] is refused with [TypeError] before either forward
    pass. *)
Definition call_self (self : W2V2Distil) (b : batch)
    : M (student_results * teacher_results) :=
  match b_labels b with
  | Some _ => raise TypeError
  | None => forward self (b_x b) (b_padding_mask b)
  end.

(** [training_step] (lines 133-145). *)
Definition training_step (self : W2V2Distil) (b : batch) : M pyval :=
  '(student_results, teacher_results) ← call_self self b;
  '(loss, losses) ← call_calculate_loss self b student_results teacher_results;
  (if monitor_losses (train (yaml_cfg_of self)) then
     ls ← lift (py_iter losses);
     log_losses 0 ls
   else mret tt);;
  mret loss.

(** Lines 155-160 and 183-188: decoding and metric accumulation of the
    task-specific mode. *)
Definition decode_and_accumulate (b : batch) (student_results : student_results)
    : M unit :=
  emit EvArgmaxLogits;;
  encoder_out ← lift (match s_encoder_out student_results with
                      | Some t => Ok t
                      | None => Raise (KeyError "encoder_out")
                      end);
  let predicted_ids := argmax_last (transpose01 encoder_out) in
  emit EvDecode;;
  let predictions := map (decoder_decode E) predicted_ids in
  references ← lift (batch_labels b);
  emit (EvMetricAddBatch "wer");;
  emit (EvMetricAddBatch "cer").

(** [validation_step] (lines 147-164): the value under ["v_loss"]. *)
Definition validation_step (self : W2V2Distil) (b : batch) : M pyval :=
  '(student_results, teacher_results) ← call_self self b;
  '(loss, losses) ← call_calculate_loss self b student_results teacher_results;
  (if negb (task_agnostic self) then decode_and_accumulate b student_results
   else mret tt);;
  emit (EvLog "v_loss");;
  mret loss.

(** [test_step] (lines 174-192): the value under ["test_loss"]. The
    pair returned by [calculate_loss] is bound to [losses] as a whole
    and summed. *)
Definition test_step (self : W2V2Distil) (b : batch) : M pyval :=
  '(student_results, teacher_results) ← call_self self b;
  losses ← call_calculate_loss self b student_results teacher_results;
  loss ← lift (py_sum [losses.1; losses.2]);
  (if negb (task_agnostic self) then decode_and_accumulate b student_results
   else mret tt);;
  emit (EvLog "test_loss");;
  mret loss.

(** [a // b] *)
Definition floordiv (a b : Z) : result Z :=
  if b =? 0 then Raise ZeroDivisionError else Ok (a / b).

(** [configure_optimizers] (lines 260-280); the value is the step count
    handed to [get_optimizer], whose optimizer is the one returned.
    [train_dataloader()] builds a loader of batch size 1 with
    [gpus * 4] workers, so its length is the length of the dataset. *)
Definition configure_optimizers (self : W2V2Distil) : M Z :=
  let cfg := train (yaml_cfg_of self) in
  emit EvEvalLearningRate;;
  lr ← lift (py_eval E (learning_rate cfg));
  emit EvBuildOptimizer;;
  lift (AdamW E lr);;
  lift (DataLoader E (train_data self) (gpus cfg * 4));;
  train_batches ← lift (floordiv (dataset_len E (train_data self)) (gpus cfg));
  num_training_steps ←
    lift (floordiv (num_epochs cfg * train_batches) (accumulate_grad_batches cfg));
  let num_warmup_steps :=
    int_of_float_product E num_training_steps (warmup_ratio cfg) in
  emit (EvGetScheduler num_warmup_steps num_training_steps);;
  lift (get_optimizer E (student_model self) num_training_steps
          (optimizer (yaml_cfg_of self)));;
  mret num_training_steps.

(** The script body in training mode (lines 360 and 397) with no
    checkpoint to resume from: the module is built, then [trainer.fit]
    asks it for its optimizers before the first step. *)
Definition main_fit (cfg : yaml_cfg) : M Z :=
  model ← init cfg;
  configure_optimizers model.

End W2V2Distil.

Arguments yaml_cfg_of {E} _.
Arguments teacher_model {E} _.
Arguments task_agnostic {E} _.
Arguments student_config {E} _.
Arguments student_model {E} _.
Arguments train_data {E} _.

(** ** A small concrete setting

    One utterance, one frame, two features; the teacher hands out the
    given layers and the student the given projections. The two
    transcendental kernels are replaced by rational stand-ins, the CTC
    loss by the length of its target. *)

Definition sample_teacher_cfg : gmap string cfg_value :=
  {[ "encoder_embed_dim" := VInt 768; "encoder_layers" := VInt 12 ]}.

Definition sample_world (task_agnostic : bool) (tres : teacher_results)
    (sres : student_results) (eval : string -> result Q) : Collaborators :=
  {| teacher_t := unit;
     student_t := list Z;
     dataset_t := Z;
     load_metric := fun _ => Ok tt;
     load_model_and_config := fun _ => Ok (tt, sample_teacher_cfg, task_agnostic);
     CustomStudentModelConfig :=
       {[ "encoder_embed_dim" := VInt 0; "encoder_layers" := VInt 0 ]};
     get_all_attributes := fun sc => (map_to_list sc).*1;
     dump_yaml := fun _ _ => Ok tt;
     CustomStudentModel := fun sc _ =>
       match sc !! "pred_layer_id" with
       | Some (VInts ids) => Ok ids
       | _ => Raise (ExternalError "CustomStudentModel")
       end;
     pred_layer_id := fun ids => ids;
     LibriDataset := fun _ _ sets _ => Ok (100 * Z.of_nat (length sets));
     dataset_len := fun n => n;
     DataLoader := fun _ num_workers =>
       if num_workers <? 0 then Raise (ExternalError "DataLoader")
       else Ok tt;
     AdamW := fun lr =>
       if Qle_bool 0 lr then Ok tt else Raise (ExternalError "AdamW");
     int_of_float_product := fun n r =>
       Z.quot (Qnum (inject_Z n * r)) (Zpos (Qden (inject_Z n * r)));
     extract_features := fun _ _ _ => Ok tres;
     student_call := fun _ _ _ => Ok sres;
     cosine_similarity := fun _ _ => 1%Q;
     logsigmoid := fun x => (x - (13 # 10))%Q;
     log_softmax := fun t => t;
     ctc_loss := fun _ target _ _ => Ok (inject_Z (Z.of_nat (length target)));
     ctc_converter := fun ids => ids;
     decoder_decode := fun _ => "";
     py_eval := eval;
     get_optimizer := fun _ _ _ => Ok tt |}.

Definition sample_distiller : gmap string cfg_value :=
  list_to_map
    [("encoder_layers", VInt 2); ("enable_tr_layer", VBool false);
     ("type_of_tr_layer", VStr "fc1"); ("tr_layer_index", VInt 0);
     ("init_conv_layers", VInt 0); ("init_encoder_layers", VInt 0);
     ("pred_head_inter_dim", VInt 0); ("pred_head_final_dim", VInt 2);
     ("pred_layer_id", VInts [0; 1; 2])].

Definition sample_cfg (w : Q) (gt : bool) (lr : string) : yaml_cfg :=
  {| teacher := "wav2vec2_base";
     distiller := sample_distiller;
     train := {| batch_size := 2; gpus := 1; num_epochs := 10;
                 accumulate_grad_batches := 2; learning_rate := lr;
                 warmup_ratio := 5 # 100; cosine_weight := w;
                 monitor_losses := true; use_gt_for_ctc := gt |};
     data := {| bucketing_path := "./data/len_for_bucket";
                libri_root := "./LibriSpeech";
                train_set := ["train-clean-100"];
                test_set := ["test-clean"] |};
     optimizer := ∅ |}.

(** Three teacher layers of shape T x B x D = 1 x 2 x 2 and student
    projections of shape B x N x T x D = 2 x 3 x 1 x 2. *)
Definition sample_teacher_results : teacher_results :=
  {| t_x := [[[0; 1]%Q; [1; 0]%Q]];
     t_layer_results :=
       [ [[[1; 2]%Q; [3; 4]%Q]];
         [[[2; 2]%Q; [2; 2]%Q]];
         [[[0; 1]%Q; [1; 0]%Q]] ] |}.

Definition sample_student_results : student_results :=
  {| s_x := [[[0; 1]%Q; [1; 0]%Q]];
     s_projections :=
       [ [[[1; 1]%Q]; [[2; 3]%Q]; [[0; 0]%Q]];
         [[[3; 3]%Q]; [[2; 2]%Q]; [[1; 1]%Q]] ];
     s_encoder_out := Some [[[0; 1]%Q; [1; 0]%Q]] |}.

Definition sample_batch (labels : option (list string)) : batch :=
  {| b_x := [[0; 0]%Q; [0; 0]%Q]; b_padding_mask := None; b_labels := labels |}.

(** A stand-in for [eval] that knows two literals. *)
Definition sample_eval (s : string) : result Q :=
  if String.eqb s "1e-4" then Ok (1 # 10000)%Q
  else if String.eqb s "5e-5" then Ok (5 # 100000)%Q
  else Raise EvalError.

Definition sample_E (task_agnostic : bool) : Collaborators :=
  sample_world task_agnostic sample_teacher_results sample_student_results
    sample_eval.

Definition sample_self (task_agnostic : bool) (w : Q) (gt : bool)
    : W2V2Distil (sample_E task_agnostic) :=
  Build_W2V2Distil (sample_E task_agnostic)
    (sample_cfg w gt "1e-4") tt task_agnostic ∅ [0; 1; 2] 100 100 100.

(** The distiller section of the sample with one more entry, for an
    attribute that [update_student_config] does not read. *)
Definition sample_distiller_extra : gmap string cfg_value :=
  <["encoder_embed_dim" := VInt 256]> sample_distiller.

(** The sample configuration without its [pred_layer_id] entry. *)
Definition sample_cfg_missing_key : yaml_cfg :=
  {| teacher := "wav2vec2_base";
     distiller := delete "pred_layer_id" sample_distiller;
     train := train (sample_cfg (1 # 2) true "1e-4");
     data := data (sample_cfg (1 # 2) true "1e-4");
     optimizer := ∅ |}.

(** The distiller section of the sample without [tr_layer_index] and
    without [pred_layer_id]. *)
Definition sample_distiller_two_missing : gmap string cfg_value :=
  delete "tr_layer_index" (delete "pred_layer_id" sample_distiller).

(** The sample module on a machine without GPUs ([gpus: 0]). *)
Definition sample_self_no_gpus : W2V2Distil (sample_E true) :=
  Build_W2V2Distil (sample_E true)
    {| teacher := "wav2vec2_base";
       distiller := sample_distiller;
       train := {| batch_size := 2; gpus := 0; num_epochs := 10;
                   accumulate_grad_batches := 2; learning_rate := "1e-4";
                   warmup_ratio := 5 # 100; cosine_weight := 1 # 2;
                   monitor_losses := true; use_gt_for_ctc := true |};
       data := data (sample_cfg (1 # 2) true "1e-4");
       optimizer := ∅ |}
    tt true ∅ [0; 1; 2] 100 100 100.

(** A teacher with twelve layer results and a student that predicts
    layers 4, 8 and 12. *)
Definition sample_teacher_twelve : teacher_results :=
  {| t_x := [[[0; 1]%Q; [1; 0]%Q]];
     t_layer_results := repeat [[[1; 2]%Q; [3; 4]%Q]] 12 |}.

Definition sample_self_layer_twelve : W2V2Distil (sample_E true) :=
  Build_W2V2Distil (sample_E true)
    (sample_cfg (1 # 2) true "1e-4") tt true ∅ [4; 8; 12] 100 100 100.

(** The student configuration that the sample resolves to, and the
    module that [__init__] builds from the sample configuration. *)
Definition sample_resolved : gmap string cfg_value :=
  <["teacher_task_agnostic" := VBool true]>
    (<["pred_layer_id" := VInts [0; 1; 2]]>
    (<["proj_head_final_dim" := VInt 2]>
    (<["proj_head_inter_dim" := VInt 0]>
    (<["init_encoder_layers" := VInt 0]>
    (<["init_conv_layers" := VInt 0]>
    (<["tr_layer_floor" := VInt 0]>
    (<["type_of_tr_layer" := VStr "fc1"]>
    (<["enable_tr_layer" := VBool false]>
    (<["encoder_layers" := VInt 2]> sample_teacher_cfg))))))))).

Definition sample_model : W2V2Distil (sample_E true) :=
  Build_W2V2Distil (sample_E true)
    (sample_cfg (1 # 2) true "1e-4") tt true sample_resolved [0; 1; 2]
    100 100 100.

(** ** Vocabulary of the properties *)

Definition no_ctc (tr : list event) : Prop :=
  Forall (fun ev => ctc_related ev = false) tr.

(** A computation that extends a trace of [P]-events by [P]-events only,
    whether it returns or raises. *)
Definition keeps {A} (P : event -> Prop) (m : M A) : Prop :=
  forall tr, Forall P tr -> Forall P (m tr).1.

(** A computation that adds no CTC-related event. *)
Definition quiet {A} (m : M A) : Prop :=
  keeps (fun ev => ctc_related ev = false) m.

(** A label all of whose characters are keys of [char_dict]. *)
Definition in_alphabet (label : string) : Prop :=
  Forall (fun c => is_Some (char_dict !! c)) (chars label).

#[global] Instance in_alphabet_dec (label : string) :
  Decision (in_alphabet label).
Proof. unfold in_alphabet. apply _. Defined.

(** Upper-case letter, space or apostrophe. *)
Definition transcript_char (a : ascii) : bool :=
  let n := N_of_ascii a in
  ((65 <=? n)%N && (n <=? 90)%N) || (n =? 32)%N || (n =? 39)%N.

(** The attributes that [update_student_config] assigns. *)
Definition assigned_attrs : list string :=
  map snd override_table ++ ["teacher_task_agnostic"].

(** The collaborator calls of a completed [__init__]. *)
Definition init_events (cfg : yaml_cfg) : list event :=
  [EvLoadMetric "wer"; EvLoadMetric "cer";
   EvLoadTeacher (teacher cfg); EvFreezeTeacher; EvDumpYaml;
   EvConstructStudent; EvBuildDataset; EvBuildDataset; EvBuildDataset].

(** The claim that a learning rate that does not evaluate stops the run
    before the teacher is loaded and the student constructed. *)
Definition lr_failure_is_fail_fast (E : Collaborators) (cfg : yaml_cfg)
    : Prop :=
  forall e, py_eval E (learning_rate (train cfg)) = Raise e ->
  exists tr e', main_fit E cfg [] = (tr, Raise e') /\
    (EvLoadTeacher (teacher cfg) ∉ tr) /\ (EvConstructStudent ∉ tr).

(** The key of [char_dict] that carries a token, if any. *)
Definition token_key (t : Z) : option string :=
  fst <$> head (filter (fun kv => bool_decide (kv.2 = t))
                  (map_to_list char_dict)).

(** Lines 204-209 of [calculate_loss] on their own: the teacher's
    hidden states at the predicted layers, stacked to B x N x T x D. *)
Definition teacher_target (E : Collaborators) (self : W2V2Distil E)
    (teacher_results : teacher_results) : result tensor4 :=
  teacher_hiddens ←
    comprehension
      (fun i => lr ← list_getitem (t_layer_results teacher_results) i;
                mret (transpose01 lr))
      (pred_layer_id E (student_model self));
  stack_dim1 teacher_hiddens.

(** A Python index that a list of [n] entries accepts. *)
Definition index_in_range (n : nat) (i : Z) : Prop :=
  - Z.of_nat n <= i < Z.of_nat n.

(** Inputs of consistent shapes: teacher layers of shape T x B x D with
    at least one frame and one utterance, a non-empty list of predicted
    layer ids within range, and projections of shape B x N x T x D for
    the N predicted layers. *)
Definition well_shaped (E : Collaborators) (self : W2V2Distil E)
    (sr : student_results) (tres : teacher_results) (T B D : nat) : Prop :=
  let ids := pred_layer_id E (student_model self) in
  ids <> [] /\
  Forall (index_in_range (length (t_layer_results tres))) ids /\
  Forall (fun l => shape3 l = Some [T; B; D]) (t_layer_results tres) /\
  (1 <= T)%nat /\ (1 <= B)%nat /\
  shape4 (s_projections sr) = Some [B; length ids; T; D].

(** Events of the decode and metric-accumulation branch of the
    validation and test steps. *)
Definition accumulates (ev : event) : bool :=
  match ev with
  | EvArgmaxLogits | EvDecode | EvMetricAddBatch _ => true
  | _ => false
  end.

(** * Properties *)

#[local] Opaque char_dict.


(** ** Running traced computations *)

Lemma run_bind {A B} (m : M A) (k : A -> M B) tr :
  (m ≫= k) tr =
  match m tr with
  | (tr', Ok a) => k a tr'
  | (tr', Raise e) => (tr', Raise e)
  end.
Proof. reflexivity. Qed.

Lemma run_lift {A} (r : result A) tr : lift r tr = (tr, r).
Proof. reflexivity. Qed.

Lemma run_emit ev tr : emit ev tr = (tr ++ [ev], Ok tt).
Proof. reflexivity. Qed.

Lemma run_ret {A} (a : A) tr : (mret a : M A) tr = (tr, Ok a).
Proof. reflexivity. Qed.

Lemma rbind_ok_inv {A B} (r : result A) (k : A -> result B) b :
  r ≫= k = Ok b -> exists a, r = Ok a /\ k a = Ok b.
Proof. destruct r as [a|e]; [eauto | discriminate]. Qed.

(** ** The loss terms of lines 204-229 *)

Section LossTerms.

Context (E : Collaborators).
Implicit Types (self : W2V2Distil E) (sr : student_results)
  (tres : teacher_results).

(** What a successful run of lines 204-229 has bound. *)
Lemma regression_and_cosine_inv self sr tres terms :
  regression_and_cosine E self sr tres = Ok terms ->
  let w := cosine_weight (train (yaml_cfg_of self)) in
  exists target diff,
    l1_loss_none (s_projections sr) target = Ok diff /\
    rec_loss terms = PTensor0 (meanQ (flat4 diff)) /\
    rec_layer_loss terms = PTensor1 (mean_023 diff) /\
    if Qle_bool w 0 then
      sim_loss terms = PNum 0 /\ sim_layer_loss terms = PNone /\
      total_loss terms = PTensor0 (meanQ (flat4 diff) + w * 0)%Q
    else
      let sim := sim_loss_none E (s_projections sr) target in
      sim_loss terms = PTensor0 (meanQ (flat3 sim)) /\
      sim_layer_loss terms = PTensor1 (mean_02 sim) /\
      total_loss terms = PTensor0 (meanQ (flat4 diff) + w * meanQ (flat3 sim))%Q.
Proof.
  unfold regression_and_cosine. intros H.
  apply rbind_ok_inv in H as (hiddens & _ & H).
  apply rbind_ok_inv in H as (target & _ & H).
  apply rbind_ok_inv in H as (diff & Hdiff & H).
  exists target, diff. split; [exact Hdiff|].
  destruct (Qle_bool (cosine_weight (train (yaml_cfg_of self))) 0);
    simpl in H; injection H as <-; simpl; auto.
Qed.

(** [torch.add] yields a tensor whenever it yields anything. *)
Lemma torch_add_ok_tensor a b v :
  torch_add a b = Ok v -> (exists x, v = PTensor0 x) \/ (exists u, v = PTensor1 u).
Proof.
  destruct a as [| |x|u|], b as [| y |y|w|]; simpl; try discriminate;
    try (intros [= <-]; eauto; fail).
  destruct (length u =? length w)%nat; [intros [= <-]; eauto|].
  destruct u as [|x [|? ?]]; destruct w as [|y [|? ?]];
    try discriminate; intros [= <-]; eauto.
Qed.

Lemma torch_add_none a : torch_add a PNone = Raise TypeError.
Proof. destruct a; reflexivity. Qed.

(** A tensor has no [append]. *)
Lemma py_append_tensor a b v x :
  torch_add a b = Ok v -> py_append v x = Raise (AttributeError "append").
Proof. intros [[? ->]|[? ->]]%torch_add_ok_tensor; reflexivity. Qed.

End LossTerms.

(** ** The loss composer with the cosine term disabled *)

Section CosineDisabled.

Context (E : Collaborators).
Implicit Types (self : W2V2Distil E) (sr : student_results)
  (tres : teacher_results) (labels : option (list string)).

Lemma Qle_bool_of_eq0 (w : Q) : (w == 0)%Q -> Qle_bool w 0 = true.
Proof. intros Hw. apply Qle_bool_iff. rewrite Hw. apply Qle_refl. Qed.

(** With a weight that is not positive, line 231 adds [None] to the
    regression means. *)
Lemma calculate_loss_disabled_run self sr tres labels tr terms :
  Qle_bool (cosine_weight (train (yaml_cfg_of self))) 0 = true ->
  regression_and_cosine E self sr tres = Ok terms ->
  calculate_loss E self sr tres labels tr = (tr, Raise TypeError).
Proof.
  intros Hw Hterms. unfold calculate_loss.
  rewrite run_bind, run_lift, Hterms, run_bind, run_lift.
  destruct (regression_and_cosine_inv E _ _ _ _ Hterms)
    as (target & diff & _ & _ & _ & Hsim).
  rewrite Hw in Hsim. destruct Hsim as (_ & -> & _).
  by rewrite torch_add_none.
Qed.

Lemma calculate_loss_prefix_raises self sr tres labels tr e :
  regression_and_cosine E self sr tres = Raise e ->
  calculate_loss E self sr tres labels tr = (tr, Raise e).
Proof.
  intros He. unfold calculate_loss. by rewrite run_bind, run_lift, He.
Qed.

(** C1 (as the code has it): with the cosine weight 0, [calculate_loss]
    never returns. When lines 204-229 succeed, the regression means are a
    one-dimensional tensor, the cosine per-layer value is [None], and
    [torch.add] of the two raises [TypeError] before anything is logged;
    the claimed result (the regression means alone) is not produced. *)
Theorem calculate_loss_cosine_weight_zero_raises self sr tres labels tr :
  (cosine_weight (train (yaml_cfg_of self)) == 0)%Q ->
  (exists e, calculate_loss E self sr tres labels tr = (tr, Raise e)) /\
  (forall terms, regression_and_cosine E self sr tres = Ok terms ->
     (exists v, rec_layer_loss terms = PTensor1 v) /\
     sim_layer_loss terms = PNone /\
     calculate_loss E self sr tres labels tr = (tr, Raise TypeError)).
Proof.
  intros Hw%Qle_bool_of_eq0. split.
  - destruct (regression_and_cosine E self sr tres) as [terms|e] eqn:Hterms.
    + exists TypeError. by eapply calculate_loss_disabled_run.
    + exists e. by apply calculate_loss_prefix_raises.
  - intros terms Hterms.
    destruct (regression_and_cosine_inv E _ _ _ _ Hterms)
      as (target & diff & _ & _ & Hlayer & Hsim).
    rewrite Hw in Hsim. destruct Hsim as (_ & Hnone & _).
    split; [eauto|]. split; [done|].
    by eapply calculate_loss_disabled_run.
Qed.

Lemma Qplus_mult_0_r (r w : Q) : (w == 0)%Q -> (r + w * 0 == r)%Q.
Proof. intros ->. ring. Qed.

(** Line 229: the total is the regression scalar plus the weight times
    the cosine scalar (the integer 0 when the term is disabled). *)
Lemma total_loss_formula self sr tres terms :
  regression_and_cosine E self sr tres = Ok terms ->
  exists r s, rec_loss terms = PTensor0 r /\
    (sim_loss terms = PTensor0 s \/ sim_loss terms = PNum s) /\
    total_loss terms
      = PTensor0 (r + cosine_weight (train (yaml_cfg_of self)) * s)%Q.
Proof.
  intros Hterms.
  destruct (regression_and_cosine_inv E _ _ _ _ Hterms)
    as (target & diff & _ & Hrec & _ & Hsim).
  destruct (Qle_bool _ 0); destruct Hsim as (Hs & _ & Ht); eauto 8.
Qed.

(** C3 (as the code has it): line 229 binds [total_loss] to the
    regression scalar plus the weight times the cosine scalar, and with
    the weight 0 that value equals the regression scalar; but with the
    weight 0 the function raises [TypeError] at line 231 and returns no
    total at all. *)
Theorem total_loss_weight_zero_not_returned self sr tres labels tr terms :
  regression_and_cosine E self sr tres = Ok terms ->
  (cosine_weight (train (yaml_cfg_of self)) == 0)%Q ->
  (exists r t, rec_loss terms = PTensor0 r /\ sim_loss terms = PNum 0 /\
     total_loss terms = PTensor0 t /\ (t == r)%Q) /\
  calculate_loss E self sr tres labels tr = (tr, Raise TypeError).
Proof.
  intros Hterms Hw. pose proof (Qle_bool_of_eq0 _ Hw) as Hle.
  destruct (regression_and_cosine_inv E _ _ _ _ Hterms)
    as (target & diff & _ & Hrec & _ & Hsim).
  rewrite Hle in Hsim. destruct Hsim as (Hs & _ & Ht). split.
  - eexists _, _. split; [exact Hrec|]. split; [exact Hs|].
    split; [exact Ht|]. by apply Qplus_mult_0_r.
  - by eapply calculate_loss_disabled_run.
Qed.

End CosineDisabled.

(** ** The loss composer in task-specific mode *)

Section TaskSpecific.

Context (E : Collaborators).
Implicit Types (self : W2V2Distil E) (sr : student_results)
  (tres : teacher_results) (labels : option (list string)).

(** In task-specific mode every run of [calculate_loss] ends in an
    exception. *)
Lemma calculate_loss_task_specific_run self sr tres labels tr :
  task_agnostic self = false ->
  exists tr' e, calculate_loss E self sr tres labels tr = (tr', Raise e).
Proof.
  intros Hta. unfold calculate_loss. rewrite run_bind, run_lift.
  destruct (regression_and_cosine E self sr tres) as [terms|e]; [|eauto].
  rewrite run_bind, run_lift.
  destruct (torch_add _ _) as [losses|e] eqn:Hadd; [|eauto].
  rewrite Hta. simpl negb. cbv iota. rewrite !run_bind.
  destruct (ctc_branch E self sr tres labels tr) as [tr' [ctc|e]]; [|eauto].
  rewrite run_lift, (py_append_tensor _ _ _ _ Hadd). eauto.
Qed.

(** C2 (as the code has it): in task-specific mode [calculate_loss]
    never returns a losses sequence. [losses] is the tensor that
    [torch.add] made, so when every earlier line succeeds, line 256
    raises [AttributeError] on [losses.append(ctc_loss)]; no sequence of
    L+1 entries is produced. *)
Theorem calculate_loss_task_specific_raises self sr tres labels tr :
  task_agnostic self = false ->
  (exists tr' e, calculate_loss E self sr tres labels tr = (tr', Raise e)) /\
  (forall terms losses tr' ctc,
     regression_and_cosine E self sr tres = Ok terms ->
     torch_add (rec_layer_loss terms) (sim_layer_loss terms) = Ok losses ->
     ctc_branch E self sr tres labels tr = (tr', Ok ctc) ->
     calculate_loss E self sr tres labels tr
       = (tr', Raise (AttributeError "append"))).
Proof.
  intros Hta. split; [by apply calculate_loss_task_specific_run|].
  intros terms losses tr' ctc Hterms Hadd Hctc. unfold calculate_loss.
  rewrite run_bind, run_lift, Hterms, run_bind, run_lift, Hadd, Hta.
  simpl negb. cbv iota.
  by rewrite !run_bind, Hctc, run_lift, (py_append_tensor _ _ _ _ Hadd).
Qed.

End TaskSpecific.

(** ** What the steps return *)

Section Steps.

Context (E : Collaborators).
Implicit Types (self : W2V2Distil E) (sr : student_results)
  (tres : teacher_results) (labels : option (list string)) (b : batch).

(** [calculate_loss] returns only in task-agnostic mode with a positive
    cosine weight, and then a scalar total and a vector of layer terms. *)
Lemma calculate_loss_ok_inv self sr tres labels tr tr' total losses :
  calculate_loss E self sr tres labels tr = (tr', Ok (total, losses)) ->
  task_agnostic self = true /\ tr' = tr /\
  Qle_bool (cosine_weight (train (yaml_cfg_of self))) 0 = false /\
  exists terms t v,
    regression_and_cosine E self sr tres = Ok terms /\
    total_loss terms = PTensor0 t /\ total = PTensor0 t /\ losses = PTensor1 v.
Proof.
  intros Hrun.
  destruct (task_agnostic self) eqn:Hta; cycle 1.
  { destruct (calculate_loss_task_specific_run E self sr tres labels tr Hta)
      as (tr2 & e & Hraise). congruence. }
  destruct (regression_and_cosine E self sr tres) as [terms|e] eqn:Hterms;
    cycle 1.
  { rewrite (calculate_loss_prefix_raises E _ _ _ _ _ _ Hterms) in Hrun.
    discriminate. }
  destruct (Qle_bool (cosine_weight (train (yaml_cfg_of self))) 0) eqn:Hw.
  { rewrite (calculate_loss_disabled_run E _ _ _ _ _ _ Hw Hterms) in Hrun.
    discriminate. }
  destruct (regression_and_cosine_inv E _ _ _ _ Hterms)
    as (target & diff & _ & Hrec & Hlayer & Hsim).
  rewrite Hw in Hsim. destruct Hsim as (_ & Hsl & Ht).
  unfold calculate_loss in Hrun.
  rewrite run_bind, run_lift, Hterms, run_bind, run_lift, Hlayer, Hsl, Hta
    in Hrun.
  simpl torch_add in Hrun.
  destruct (length _ =? length _)%nat in Hrun.
  - injection Hrun as <- <- <-. rewrite Ht. eauto 10.
  - destruct (mean_023 diff) as [|x [|? ?]];
      destruct (mean_02 _) as [|y [|? ?]];
      try discriminate; injection Hrun as <- <- <-; rewrite Ht; eauto 10.
Qed.

Lemma log_losses_ok (ls : list Q) : forall i tr,
  exists tr', log_losses i ls tr = (tr', Ok tt).
Proof.
  induction ls as [|l ls IH]; intros i tr; simpl; [by eexists|].
  rewrite run_bind, run_emit. apply IH.
Qed.

(** [sum((total_loss, losses))] for a scalar and a vector. *)
Lemma py_sum_total_layers (t : Q) (v : tensor1) :
  py_sum [PTensor0 t; PTensor1 v]
  = Ok (PTensor1 (map (fun l => (0 + t + l)%Q) v)).
Proof. reflexivity. Qed.

(** C6 (as the code has it): whenever [test_step] returns, the loss it
    logs and returns is not the scalar total of the loss composer. The
    step binds the pair [(total_loss, losses)] to one name and sums it,
    so its loss is the one-dimensional tensor [total_loss + losses],
    while [training_step] on the same batch returns the scalar
    [total_loss]. *)
Theorem test_step_loss_is_not_total self b tr tr' loss :
  test_step E self b tr = (tr', Ok loss) ->
  exists total layers tr'',
    training_step E self b tr = (tr'', Ok (PTensor0 total)) /\
    loss = PTensor1 (map (fun l => (0 + total + l)%Q) layers) /\
    loss <> PTensor0 total.
Proof.
  unfold test_step, training_step. rewrite !run_bind.
  destruct (call_self E self b tr)
    as [tr1 [[sr tres]|e]]; [|discriminate].
  rewrite !run_bind.
  destruct (call_calculate_loss E self b sr tres tr1)
    as [tr2 [[total losses]|e]] eqn:Hcall; [|discriminate].
  assert (exists t v, total = PTensor0 t /\ losses = PTensor1 v)
    as (t & v & -> & ->).
  { unfold call_calculate_loss in Hcall.
    destruct (negb (task_agnostic self)).
    - rewrite run_bind, run_lift in Hcall.
      destruct (batch_labels b); [|discriminate].
      apply calculate_loss_ok_inv in Hcall
        as (_ & _ & _ & terms & t & v & _ & _ & -> & ->). eauto.
    - apply calculate_loss_ok_inv in Hcall
        as (_ & _ & _ & terms & t & v & _ & _ & -> & ->). eauto. }
  intros Hrun. exists t, v.
  assert (exists tr'', (if monitor_losses (train (yaml_cfg_of self))
            then ls ← lift (py_iter (PTensor1 v)); log_losses 0 ls
            else mret tt) tr2 = (tr'', Ok tt)) as [tr'' Hlog].
  { destruct (monitor_losses _); [|by eexists].
    rewrite run_bind, run_lift. simpl. apply log_losses_ok. }
  exists tr''. rewrite !run_bind, Hlog, run_ret. split; [done|].
  rewrite run_bind, run_lift in Hrun. cbn [fst snd] in Hrun.
  rewrite py_sum_total_layers, run_bind in Hrun.
  destruct ((if negb (task_agnostic self)
             then decode_and_accumulate E b sr else mret tt) tr2)
    as [tr3 [[]|e]]; [|discriminate].
  rewrite run_bind, run_emit, run_ret in Hrun.
  injection Hrun as _ <-. split; [reflexivity|discriminate].
Qed.

End Steps.

(** ** Task-agnostic mode touches nothing of CTC *)

Lemma keeps_ret {A} P (a : A) : keeps P (mret a : M A).
Proof. by intros tr Htr. Qed.

Lemma keeps_lift {A} P (r : result A) : keeps P (lift r).
Proof. by intros tr Htr. Qed.

Lemma keeps_emit (P : event -> Prop) ev : P ev -> keeps P (emit ev).
Proof.
  intros Hev tr Htr. rewrite run_emit. simpl.
  apply Forall_app. split; [done|]. by constructor.
Qed.

Lemma keeps_bind {A B} P (m : M A) (k : A -> M B) :
  keeps P m -> (forall a, keeps P (k a)) -> keeps P (m ≫= k).
Proof.
  intros Hm Hk tr Htr. rewrite run_bind.
  specialize (Hm tr Htr). destruct (m tr) as [tr1 [a|e]]; simpl in *.
  - by apply Hk.
  - done.
Qed.

Lemma quiet_ret {A} (a : A) : quiet (mret a : M A).
Proof. apply keeps_ret. Qed.

Lemma quiet_lift {A} (r : result A) : quiet (lift r).
Proof. apply keeps_lift. Qed.

Lemma quiet_emit ev : ctc_related ev = false -> quiet (emit ev).
Proof. exact (keeps_emit (fun ev => ctc_related ev = false) ev). Qed.

Lemma quiet_bind {A B} (m : M A) (k : A -> M B) :
  quiet m -> (forall a, quiet (k a)) -> quiet (m ≫= k).
Proof. apply keeps_bind. Qed.

Create HintDb quiet.
#[local] Hint Resolve quiet_ret quiet_lift quiet_emit quiet_bind : quiet.

Section TaskAgnostic.

Context (E : Collaborators).
Implicit Types (self : W2V2Distil E) (sr : student_results)
  (tres : teacher_results) (labels : option (list string)) (b : batch).

Lemma quiet_forward self x mask : quiet (forward E self x mask).
Proof.
  unfold forward. repeat (apply quiet_bind; [|intros ?]); auto with quiet.
Qed.

Lemma quiet_call_self self b : quiet (call_self E self b).
Proof.
  unfold call_self. destruct (b_labels b); [by intros tr Htr|].
  apply quiet_forward.
Qed.

Lemma quiet_calculate_loss self sr tres labels :
  task_agnostic self = true -> quiet (calculate_loss E self sr tres labels).
Proof.
  intros Hta. unfold calculate_loss. rewrite Hta. simpl negb. cbv iota.
  repeat (apply quiet_bind; [|intros ?]); auto with quiet.
Qed.

Lemma quiet_call_calculate_loss self b sr tres :
  task_agnostic self = true -> quiet (call_calculate_loss E self b sr tres).
Proof.
  intros Hta. unfold call_calculate_loss. rewrite Hta. simpl negb. cbv iota.
  by apply quiet_calculate_loss.
Qed.

Lemma quiet_log_losses (ls : list Q) : forall i, quiet (log_losses i ls).
Proof.
  induction ls as [|l ls IH]; intros i; simpl; auto with quiet.
Qed.

Lemma quiet_training_step self b :
  task_agnostic self = true -> quiet (training_step E self b).
Proof.
  intros Hta. unfold training_step.
  apply quiet_bind; [apply quiet_call_self|intros [sr tres]].
  apply quiet_bind; [by apply quiet_call_calculate_loss|intros [loss losses]].
  apply quiet_bind; [|auto with quiet].
  destruct (monitor_losses _); [|auto with quiet].
  apply quiet_bind; [auto with quiet|]. intros ls. apply quiet_log_losses.
Qed.

Lemma quiet_validation_step self b :
  task_agnostic self = true -> quiet (validation_step E self b).
Proof.
  intros Hta. unfold validation_step. rewrite Hta. simpl negb. cbv iota.
  apply quiet_bind; [apply quiet_call_self|intros [sr tres]].
  apply quiet_bind; [by apply quiet_call_calculate_loss|intros [loss losses]].
  repeat (apply quiet_bind; [|intros ?]); auto with quiet.
Qed.

Lemma quiet_test_step self b :
  task_agnostic self = true -> quiet (test_step E self b).
Proof.
  intros Hta. unfold test_step. rewrite Hta. simpl negb. cbv iota.
  apply quiet_bind; [apply quiet_call_self|intros [sr tres]].
  apply quiet_bind; [by apply quiet_call_calculate_loss|intros losses].
  repeat (apply quiet_bind; [|intros ?]); auto with quiet.
Qed.

(** C9: with [task_agnostic] true, no training, validation or test step
    computes a CTC-related quantity: started from a trace without such
    events, each step ends (by return or by exception) with a trace
    without them, so neither the CTC branch of [calculate_loss] nor the
    decode and metric-accumulation branch is entered. *)
Theorem task_agnostic_steps_compute_no_ctc self b tr :
  task_agnostic self = true ->
  no_ctc tr ->
  no_ctc (training_step E self b tr).1 /\
  no_ctc (validation_step E self b tr).1 /\
  no_ctc (test_step E self b tr).1.
Proof.
  intros Hta Htr. split; [|split].
  - by apply quiet_training_step.
  - by apply quiet_validation_step.
  - by apply quiet_test_step.
Qed.

End TaskAgnostic.

(** ** Ground-truth CTC targets *)

Section Comprehension.

Context {A B : Type} (f : A -> result B).

Lemma comprehension_ok_inv xs ys :
  comprehension f xs = Ok ys -> Forall2 (fun x y => f x = Ok y) xs ys.
Proof.
  revert ys. induction xs as [|x xs IH]; simpl; intros ys H.
  - injection H as <-. constructor.
  - apply rbind_ok_inv in H as (y & Hy & H).
    apply rbind_ok_inv in H as (ys' & Hys & H).
    injection H as <-. constructor; auto.
Qed.

Lemma comprehension_ok xs ys :
  Forall2 (fun x y => f x = Ok y) xs ys -> comprehension f xs = Ok ys.
Proof.
  induction 1 as [|x y xs ys Hxy _ IH]; simpl; [done|].
  by rewrite Hxy, IH.
Qed.

Lemma comprehension_raise_inv xs e :
  comprehension f xs = Raise e -> exists x, x ∈ xs /\ f x = Raise e.
Proof.
  induction xs as [|x xs IH]; simpl; [discriminate|].
  destruct (f x) as [y|e'] eqn:Hx; simpl.
  - destruct (comprehension f xs) as [ys|e'']; simpl; [discriminate|].
    intros [= ->]. destruct IH as (x' & Hin & Hx'); [done|].
    exists x'. split; [by right|done].
  - intros [= ->]. exists x. split; [by left|done].
Qed.

End Comprehension.

Lemma length_chars (s : string) : length (chars s) = String.length s.
Proof.
  unfold chars. rewrite length_map.
  induction s as [|a s IH]; simpl; [done|]. by rewrite IH.
Qed.

Lemma label_tokens_ok_inv label toks :
  label_tokens label = Ok toks ->
  Forall2 (fun c t => char_dict !! c = Some t) (chars label) toks.
Proof.
  intros H%comprehension_ok_inv. eapply Forall2_impl; [exact H|].
  intros c t. unfold getitem.
  destruct (char_dict !! c) as [v|]; [by intros [= ->]|discriminate].
Qed.

Lemma label_tokens_ok label :
  in_alphabet label ->
  exists toks, label_tokens label = Ok toks /\
    Forall2 (fun c t => char_dict !! c = Some t) (chars label) toks /\
    length toks = String.length label.
Proof.
  unfold in_alphabet, label_tokens. rewrite <- length_chars.
  induction (chars label) as [|c cs IH]; intros Hall.
  - exists []. repeat split; constructor.
  - apply Forall_cons in Hall as [[t Ht] Hall].
    destruct (IH Hall) as (toks & Htoks & Hrel & Hlen).
    exists (t :: toks). simpl. unfold getitem at 1. rewrite Ht. simpl.
    rewrite Htoks. simpl. repeat split; [by constructor|by rewrite Hlen].
Qed.

Lemma label_tokens_raise_inv label e :
  label_tokens label = Raise e ->
  exists c, c ∈ chars label /\ char_dict !! c = None /\ e = KeyError c.
Proof.
  intros (c & Hin & Hc)%comprehension_raise_inv. exists c.
  unfold getitem in Hc. destruct (char_dict !! c); [discriminate|].
  by injection Hc as <-.
Qed.

(** Lines 239-241 succeed exactly on a non-empty batch of labels over
    the alphabet. *)
Lemma gt_target_ok labels :
  labels <> [] -> Forall in_alphabet labels ->
  exists gt_tokens,
    Forall2 (fun label toks =>
               Forall2 (fun c t => char_dict !! c = Some t) (chars label) toks)
            labels gt_tokens /\
    map (@length Z) gt_tokens = map String.length labels /\
    gt_target labels = Ok (concat gt_tokens, map String.length labels).
Proof.
  intros Hne Hall.
  assert (exists gt_tokens,
    Forall2 (fun label toks => label_tokens label = Ok toks /\
               Forall2 (fun c t => char_dict !! c = Some t) (chars label) toks /\
               length toks = String.length label) labels gt_tokens)
    as [gt_tokens Hrel].
  { clear Hne. induction Hall as [|label labels Hl _ [gts IH]].
    - exists []. constructor.
    - destruct (label_tokens_ok label Hl) as (toks & ? & ? & ?).
      exists (toks :: gts). by constructor. }
  exists gt_tokens.
  assert (map (@length Z) gt_tokens = map String.length labels) as Hlens.
  { clear Hne Hall. induction Hrel as [|? ? ? ? (_ & _ & Hlen) _ IH]; simpl;
      [done|]. by rewrite Hlen, IH. }
  split; [|split; [exact Hlens|]].
  - eapply Forall2_impl; [exact Hrel|]. by intros ? ? (_ & ? & _).
  - unfold gt_target.
    rewrite (comprehension_ok label_tokens labels gt_tokens).
    + simpl. destruct gt_tokens as [|toks gts].
      * apply Forall2_nil_inv_r in Hrel. done.
      * simpl. by rewrite <- Hlens.
    + eapply Forall2_impl; [exact Hrel|]. by intros ? ? (? & _).
Qed.

Lemma gt_target_ok_inv labels r :
  gt_target labels = Ok r -> labels <> [] /\ Forall in_alphabet labels.
Proof.
  unfold gt_target. intros H.
  apply rbind_ok_inv in H as (gt_tokens & Htoks & H).
  apply comprehension_ok_inv in Htoks. split.
  - intros ->. apply Forall2_nil_inv_l in Htoks as ->. discriminate.
  - clear H. induction Htoks as [|label toks labels gts Hl _ IH];
      constructor; [|done].
    apply label_tokens_ok_inv in Hl. unfold in_alphabet.
    clear -Hl. induction Hl; constructor; eauto.
Qed.

Lemma gt_target_raise_inv labels e :
  gt_target labels = Raise e ->
  (labels = [] /\ e = RuntimeError) \/
  (exists label c, label ∈ labels /\ c ∈ chars label /\
     char_dict !! c = None /\ e = KeyError c).
Proof.
  unfold gt_target.
  destruct (comprehension label_tokens labels) as [gts|e'] eqn:Hc; simpl.
  - destruct gts as [|toks gts]; simpl; [|discriminate].
    intros [= <-]. left. split; [|done].
    apply comprehension_ok_inv in Hc. by apply Forall2_nil_inv_r in Hc.
  - intros [= ->]. right.
    apply comprehension_raise_inv in Hc as (label & Hin & Hl).
    apply label_tokens_raise_inv in Hl as (c & ? & ? & ?). eauto 6.
Qed.

Lemma sum_list_lengths_concat {X} (ls : list (list X)) :
  length (concat ls) = sum_list (map (@length X) ls).
Proof. induction ls as [|l ls IH]; simpl; [done|]. by rewrite length_app, IH. Qed.

(** C4: ground-truth target construction sends each character of each
    label through [char_dict] (32 entries), concatenates the token lists
    of the batch and records each label's length; "CAT" gives
    [19, 7, 6], and labels of lengths [3, 5] give a target of length 8. *)
Theorem gt_target_construction (labels : list string) :
  labels <> [] ->
  Forall in_alphabet labels ->
  size char_dict = 32%nat /\
  label_tokens "CAT" = Ok [19; 7; 6] /\
  exists gt_tokens target,
    Forall2 (fun label toks =>
               Forall2 (fun c t => char_dict !! c = Some t) (chars label) toks)
            labels gt_tokens /\
    target = concat gt_tokens /\
    gt_target labels = Ok (target, map String.length labels) /\
    length target = sum_list (map String.length labels) /\
    (map String.length labels = [3; 5]%nat -> length target = 8%nat).
Proof.
  intros Hne Hall. split; [by vm_compute|]. split; [by vm_compute|].
  destruct (gt_target_ok labels Hne Hall) as (gt_tokens & Hrel & Hlens & Hrun).
  exists gt_tokens, (concat gt_tokens).
  assert (length (concat gt_tokens) = sum_list (map String.length labels))
    as Hlen by (by rewrite sum_list_lengths_concat, Hlens).
  repeat split; try done.
  intros H35. by rewrite Hlen, H35.
Qed.

(** The one-character keys of [char_dict] are the upper-case letters,
    the space and the apostrophe; the four special tokens are longer
    than one character and match no character of a label. *)
Lemma single_char_keys (a : ascii) :
  bool_decide (is_Some (char_dict !! String a "")) = transcript_char a.
Proof.
  destruct a as [[] [] [] [] [] [] [] []]; vm_compute; reflexivity.
Qed.

Lemma gt_target_outside_alphabet labels :
  ~ Forall in_alphabet labels ->
  exists label c, label ∈ labels /\ c ∈ chars label /\
    char_dict !! c = None /\ gt_target labels = Raise (KeyError c).
Proof.
  intros Hnot. destruct (gt_target labels) as [r|e] eqn:Hrun.
  - apply gt_target_ok_inv in Hrun as [_ Hall]. by destruct Hnot.
  - apply gt_target_raise_inv in Hrun as [[-> _]|(label & c & ? & ? & ? & ->)].
    + destruct Hnot. constructor.
    + eauto 6.
Qed.

(** In [calculate_loss]: once lines 204-231 have succeeded in
    task-specific mode with ground-truth targets, a label outside the
    alphabet ends the call with the [KeyError] of line 239. *)
Lemma calculate_loss_label_outside_alphabet (E : Collaborators)
    (self : W2V2Distil E) sr tres labels tr terms losses :
  task_agnostic self = false ->
  use_gt_for_ctc (train (yaml_cfg_of self)) = true ->
  regression_and_cosine E self sr tres = Ok terms ->
  torch_add (rec_layer_loss terms) (sim_layer_loss terms) = Ok losses ->
  ~ Forall in_alphabet labels ->
  exists c, char_dict !! c = None /\
    calculate_loss E self sr tres (Some labels) tr
      = (tr ++ [EvCtcLogSoftmax; EvCtcTargetGT], Raise (KeyError c)).
Proof.
  intros Hta Hgt Hterms Hadd Hnot.
  destruct (gt_target_outside_alphabet labels Hnot)
    as (label & c & _ & _ & Hc & Hrun).
  exists c. split; [done|]. unfold calculate_loss.
  rewrite run_bind, run_lift, Hterms, run_bind, run_lift, Hadd, Hta.
  simpl negb. cbv iota. unfold ctc_branch. rewrite Hgt.
  rewrite !run_bind, run_emit, !run_bind, run_emit, run_lift, Hrun.
  by rewrite <- app_assoc.
Qed.

(** C10: ground-truth target construction succeeds only when every
    character of every label is a key of [char_dict], which for a single
    character means an upper-case letter, the space or the apostrophe;
    a label with any other character (a lower-case letter, a digit)
    makes the lookup of line 239 raise [KeyError], in [gt_target] and in
    [calculate_loss] alike. *)
Theorem gt_target_total_only_on_alphabet :
  (forall a, is_Some (char_dict !! String a "") <-> transcript_char a = true) /\
  (forall labels r, gt_target labels = Ok r -> Forall in_alphabet labels) /\
  (forall labels, ~ Forall in_alphabet labels ->
     exists label c, label ∈ labels /\ c ∈ chars label /\
       char_dict !! c = None /\ gt_target labels = Raise (KeyError c)) /\
  gt_target ["HELLO"; "hello"] = Raise (KeyError "h") /\
  gt_target ["R2D2"] = Raise (KeyError "2") /\
  (forall (E : Collaborators) (self : W2V2Distil E) sr tres labels tr
          terms losses,
     task_agnostic self = false ->
     use_gt_for_ctc (train (yaml_cfg_of self)) = true ->
     regression_and_cosine E self sr tres = Ok terms ->
     torch_add (rec_layer_loss terms) (sim_layer_loss terms) = Ok losses ->
     ~ Forall in_alphabet labels ->
     exists c, char_dict !! c = None /\
       calculate_loss E self sr tres (Some labels) tr
         = (tr ++ [EvCtcLogSoftmax; EvCtcTargetGT], Raise (KeyError c))).
Proof.
  split; [|split; [|split; [|split; [|split]]]].
  - intros a. rewrite <- single_char_keys. by rewrite bool_decide_eq_true.
  - intros labels r H. by apply gt_target_ok_inv in H as [_ ?].
  - apply gt_target_outside_alphabet.
  - by vm_compute.
  - by vm_compute.
  - apply calculate_loss_label_outside_alphabet.
Qed.

(** ** Config resolver *)

(** The copy loop of lines 55-57, attribute by attribute. *)
Lemma copy_teacher_attrs_lookup (target_keys : list string)
    (teacher_config student_config : gmap string cfg_value) (a : string) :
  copy_teacher_attrs target_keys teacher_config student_config !! a =
  match teacher_config !! a with
  | Some v => if bool_decide (a ∈ target_keys) then Some v
              else student_config !! a
  | None => student_config !! a
  end.
Proof.
  unfold copy_teacher_attrs.
  apply (map_fold_weak_ind (fun r (m : gmap string cfg_value) =>
    r !! a = match m !! a with
             | Some v => if bool_decide (a ∈ target_keys) then Some v
                         else student_config !! a
             | None => student_config !! a
             end)).
  - by rewrite lookup_empty.
  - intros k v m r Hk IH. destruct (decide (k = a)) as [->|Hne].
    + rewrite Hk in IH.
      destruct (bool_decide (a ∈ target_keys)); by rewrite !lookup_insert_eq.
    + destruct (bool_decide (k ∈ target_keys));
        by rewrite !lookup_insert_ne by done.
Qed.

(** With every required key present, lines 297-310 run to the end. *)
Lemma update_student_config_ok (ta : bool)
    (cfg sc : gmap string cfg_value) :
  (forall k, k ∈ required_keys -> is_Some (cfg !! k)) ->
  exists resolved,
    update_student_config ta cfg sc = Ok resolved /\
    (forall key attr, (key, attr) ∈ override_table ->
       resolved !! attr = cfg !! key) /\
    resolved !! "teacher_task_agnostic" = Some (VBool ta) /\
    (forall a, a ∉ assigned_attrs -> resolved !! a = sc !! a).
Proof.
  intros Hreq.
  assert (forall k, k ∈ required_keys -> exists v, cfg !! k = Some v) as Hget.
  { intros k Hk. by apply Hreq. }
  unfold required_keys, override_table in Hget. simpl in Hget.
  destruct (Hget "encoder_layers") as [v1 H1]; [repeat constructor|].
  destruct (Hget "enable_tr_layer") as [v2 H2]; [repeat constructor|].
  destruct (Hget "type_of_tr_layer") as [v3 H3]; [repeat constructor|].
  destruct (Hget "tr_layer_index") as [v4 H4]; [repeat constructor|].
  destruct (Hget "init_conv_layers") as [v5 H5]; [repeat constructor|].
  destruct (Hget "init_encoder_layers") as [v6 H6]; [repeat constructor|].
  destruct (Hget "pred_head_inter_dim") as [v7 H7]; [repeat constructor|].
  destruct (Hget "pred_head_final_dim") as [v8 H8]; [repeat constructor|].
  destruct (Hget "pred_layer_id") as [v9 H9]; [repeat constructor|].
  eexists. split.
  { unfold update_student_config, getitem.
    rewrite H1, H2, H3, H4, H5, H6, H7, H8, H9. reflexivity. }
  split; [|split].
  - intros key attr Hin. unfold override_table in Hin.
    repeat (apply elem_of_cons in Hin as [[= -> ->]|Hin];
            [by simplify_map_eq|]).
    by apply elem_of_nil in Hin.
  - by simplify_map_eq.
  - intros a Ha. unfold assigned_attrs, override_table in Ha. simpl in Ha.
    repeat (rewrite lookup_insert_ne; [|intros <-; apply Ha; repeat constructor]).
    done.
Qed.

(** With a required key absent, lines 297-309 raise the [KeyError] of
    the first absent key they read. *)
Lemma update_student_config_missing (ta : bool)
    (cfg sc : gmap string cfg_value) (k : string) :
  k ∈ required_keys -> cfg !! k = None ->
  exists k', k' ∈ required_keys /\ cfg !! k' = None /\
    update_student_config ta cfg sc = Raise (KeyError k').
Proof.
  intros Hk Hnone. unfold update_student_config, getitem.
  destruct (cfg !! "encoder_layers") eqn:H1;
    [|exists "encoder_layers"; split; [by repeat constructor|done]].
  destruct (cfg !! "enable_tr_layer") eqn:H2;
    [|exists "enable_tr_layer"; split; [by repeat constructor|done]].
  destruct (cfg !! "type_of_tr_layer") eqn:H3;
    [|exists "type_of_tr_layer"; split; [by repeat constructor|done]].
  destruct (cfg !! "tr_layer_index") eqn:H4;
    [|exists "tr_layer_index"; split; [by repeat constructor|done]].
  destruct (cfg !! "init_conv_layers") eqn:H5;
    [|exists "init_conv_layers"; split; [by repeat constructor|done]].
  destruct (cfg !! "init_encoder_layers") eqn:H6;
    [|exists "init_encoder_layers"; split; [by repeat constructor|done]].
  destruct (cfg !! "pred_head_inter_dim") eqn:H7;
    [|exists "pred_head_inter_dim"; split; [by repeat constructor|done]].
  destruct (cfg !! "pred_head_final_dim") eqn:H8;
    [|exists "pred_head_final_dim"; split; [by repeat constructor|done]].
  destruct (cfg !! "pred_layer_id") eqn:H9;
    [|exists "pred_layer_id"; split; [by repeat constructor|done]].
  exfalso. unfold required_keys, override_table in Hk. simpl in Hk.
  repeat (apply elem_of_cons in Hk as [->|Hk]; [congruence|]).
  by apply elem_of_nil in Hk.
Qed.

(** C5: the teacher-derived copy is applied first and the explicit
    overrides second, so the overrides win. Once every required key is
    present, the resolved configuration holds, for each attribute of the
    override mapping, the value of the distiller key it is read from
    ([tr_layer_floor] from [tr_layer_index], [proj_head_*] from
    [pred_head_*], the others under their own names), whatever the
    teacher configuration holds for it; attributes outside the override
    mapping keep the teacher-derived value (or the student default). *)
Theorem resolved_assigned_attrs_take_override (E : Collaborators)
    (teacher_config cfg : gmap string cfg_value) (ta : bool) :
  (forall k, k ∈ required_keys -> is_Some (cfg !! k)) ->
  exists resolved,
    resolve_student_config E teacher_config ta cfg = Ok resolved /\
    (forall key attr, (key, attr) ∈ override_table ->
       resolved !! attr = cfg !! key) /\
    resolved !! "teacher_task_agnostic" = Some (VBool ta) /\
    (forall a, a ∉ assigned_attrs ->
       resolved !! a =
       match teacher_config !! a with
       | Some v =>
           if bool_decide
                (a ∈ get_all_attributes E (CustomStudentModelConfig E))
           then Some v else CustomStudentModelConfig E !! a
       | None => CustomStudentModelConfig E !! a
       end).
Proof.
  intros Hreq. unfold resolve_student_config.
  destruct (update_student_config_ok ta cfg
              (copy_teacher_attrs
                 (get_all_attributes E (CustomStudentModelConfig E))
                 teacher_config (CustomStudentModelConfig E)) Hreq)
    as (resolved & Hrun & Htable & Hta & Hrest).
  exists resolved. repeat split; try done.
  intros a Ha. rewrite (Hrest a Ha). apply copy_teacher_attrs_lookup.
Qed.

(** ** Start-up order *)

Section Startup.

Context (E : Collaborators).

Lemma keeps_load_and_resolve (P : event -> Prop) cfg :
  P (EvLoadMetric "wer") -> P (EvLoadMetric "cer") ->
  P (EvLoadTeacher (teacher cfg)) -> P EvFreezeTeacher ->
  keeps P (load_and_resolve E cfg).
Proof.
  intros. unfold load_and_resolve.
  apply keeps_bind; [by apply keeps_emit|intros _].
  apply keeps_bind; [apply keeps_lift|intros _].
  apply keeps_bind; [by apply keeps_emit|intros _].
  apply keeps_bind; [apply keeps_lift|intros _].
  apply keeps_bind; [by apply keeps_emit|intros _].
  apply keeps_bind; [apply keeps_lift|intros [[tm tc] ta]].
  apply keeps_bind; [by apply keeps_emit|intros _].
  apply keeps_bind; [apply keeps_lift|intros sc].
  apply keeps_ret.
Qed.

Lemma keeps_init (P : event -> Prop) cfg :
  Forall P (init_events cfg) -> keeps P (init E cfg).
Proof.
  intros HP. unfold init_events in HP.
  repeat (apply Forall_cons in HP as [? HP]).
  unfold init.
  apply keeps_bind; [by apply keeps_load_and_resolve|].
  intros [[tm sc] ta].
  repeat (apply keeps_bind; [|intros ?]);
    auto using keeps_emit, keeps_lift, keeps_ret.
Qed.

(** [__init__] never evaluates the learning rate. *)
Lemma init_does_not_eval_learning_rate cfg :
  EvEvalLearningRate ∉ (init E cfg []).1.
Proof.
  assert (Forall (fun ev => ev <> EvEvalLearningRate) (init E cfg []).1) as H.
  { apply keeps_init; [|constructor].
    unfold init_events. by repeat constructor. }
  intros Hin. by eapply Forall_forall in H.
Qed.

Lemma init_ok_inv cfg tr tr' model :
  init E cfg tr = (tr', Ok model) ->
  tr' = tr ++ init_events cfg /\ yaml_cfg_of model = cfg.
Proof.
  unfold init, load_and_resolve.
  rewrite !run_bind, run_emit, !run_bind, run_lift.
  destruct (load_metric E "wer") as [[]|e]; [|discriminate].
  rewrite !run_bind, run_emit, !run_bind, run_lift.
  destruct (load_metric E "cer") as [[]|e]; [|discriminate].
  rewrite !run_bind, run_emit, !run_bind, run_lift.
  destruct (load_model_and_config E (teacher cfg)) as [[[tm tc] ta]|e];
    [|discriminate].
  rewrite !run_bind, run_emit, !run_bind, run_lift.
  destruct (resolve_student_config E tc ta (distiller cfg)) as [sc|e];
    [|discriminate].
  rewrite run_ret, !run_bind, run_emit, !run_bind, run_lift.
  destruct (dump_yaml E sc cfg) as [[]|e]; [|discriminate].
  rewrite !run_bind, run_emit, !run_bind, run_lift.
  destruct (CustomStudentModel E sc tm) as [sm|e]; [|discriminate].
  rewrite !run_bind, run_emit, !run_bind, run_lift.
  destruct (LibriDataset E _ _ (train_set _) _) as [trd|e]; [|discriminate].
  rewrite !run_bind, run_emit, !run_bind, run_lift.
  destruct (LibriDataset E _ _ ["dev-clean"] _) as [evd|e]; [|discriminate].
  rewrite !run_bind, run_emit, !run_bind, run_lift.
  destruct (LibriDataset E _ _ (test_set _) _) as [ted|e]; [|discriminate].
  rewrite run_ret. intros [= <- <-]. split; [|done].
  unfold init_events. by rewrite <- !app_assoc.
Qed.

(** With a required key absent, lines 28-63 end in an exception; it is
    the [KeyError] of an absent required key once the metrics and the
    teacher have been loaded. *)
Lemma load_and_resolve_missing_key cfg k :
  k ∈ required_keys -> distiller cfg !! k = None ->
  exists tr e,
    load_and_resolve E cfg [] = (tr, Raise e) /\
    (load_metric E "wer" = Ok tt -> load_metric E "cer" = Ok tt ->
     forall loaded, load_model_and_config E (teacher cfg) = Ok loaded ->
       tr = [EvLoadMetric "wer"; EvLoadMetric "cer";
             EvLoadTeacher (teacher cfg); EvFreezeTeacher] /\
       exists k', k' ∈ required_keys /\ distiller cfg !! k' = None /\
         e = KeyError k').
Proof.
  intros Hk Hnone. unfold load_and_resolve.
  rewrite !run_bind, run_emit, !run_bind, run_lift.
  destruct (load_metric E "wer") as [[]|e].
  2:{ eexists _, _. split; [reflexivity|]. discriminate. }
  rewrite !run_bind, run_emit, !run_bind, run_lift.
  destruct (load_metric E "cer") as [[]|e].
  2:{ eexists _, _. split; [reflexivity|]. discriminate. }
  rewrite !run_bind, run_emit, !run_bind, run_lift.
  destruct (load_model_and_config E (teacher cfg)) as [[[tm tc] ta]|e].
  2:{ eexists _, _. split; [reflexivity|]. discriminate. }
  rewrite !run_bind, run_emit, !run_bind, run_lift.
  destruct (update_student_config_missing ta (distiller cfg)
              (copy_teacher_attrs
                 (get_all_attributes E (CustomStudentModelConfig E))
                 tc (CustomStudentModelConfig E)) k Hk Hnone)
    as (k' & Hk' & Hnone' & Hrun).
  unfold resolve_student_config. rewrite Hrun.
  eexists _, _. split; [reflexivity|].
  intros _ _ loaded _. split; [done|]. eauto.
Qed.

(** C8: when the distiller section omits a required key, [__init__]
    raises before [CustomStudentModel] is called; once the metrics and
    the teacher have been loaded, the exception is the [KeyError] of an
    absent required key, raised right after the teacher was frozen, and
    nothing is defaulted. *)
Theorem init_missing_required_key_raises cfg k :
  k ∈ required_keys ->
  distiller cfg !! k = None ->
  exists tr e,
    init E cfg [] = (tr, Raise e) /\
    (EvConstructStudent ∉ tr) /\
    (load_metric E "wer" = Ok tt -> load_metric E "cer" = Ok tt ->
     forall loaded, load_model_and_config E (teacher cfg) = Ok loaded ->
       tr = [EvLoadMetric "wer"; EvLoadMetric "cer";
             EvLoadTeacher (teacher cfg); EvFreezeTeacher] /\
       exists k', k' ∈ required_keys /\ distiller cfg !! k' = None /\
         e = KeyError k').
Proof.
  intros Hk Hnone.
  destruct (load_and_resolve_missing_key cfg k Hk Hnone)
    as (tr & e & Hrun & Hkey).
  exists tr, e. split; [|split; [|exact Hkey]].
  - unfold init. by rewrite run_bind, Hrun.
  - assert (Forall (fun ev => ev <> EvConstructStudent)
              (load_and_resolve E cfg []).1) as Hall.
    { apply keeps_load_and_resolve; try discriminate. constructor. }
    rewrite Hrun in Hall. simpl in Hall.
    intros Hin. by eapply Forall_forall in Hall.
Qed.

(** C7 (as the code has it): the learning-rate expression is evaluated
    by [configure_optimizers] only. When it fails to evaluate and
    [__init__] completes, the run has already loaded the teacher and
    constructed the student; the exception of [eval] then surfaces
    during optimizer setup, as the first action of
    [configure_optimizers], and [__init__] itself never evaluates the
    expression. *)
Theorem learning_rate_failure_surfaces_in_configure_optimizers
    cfg model tr0 e :
  init E cfg [] = (tr0, Ok model) ->
  py_eval E (learning_rate (train cfg)) = Raise e ->
  configure_optimizers E model tr0 = (tr0 ++ [EvEvalLearningRate], Raise e) /\
  main_fit E cfg [] = (tr0 ++ [EvEvalLearningRate], Raise e) /\
  EvLoadTeacher (teacher cfg) ∈ tr0 /\
  EvConstructStudent ∈ tr0 /\
  EvEvalLearningRate ∉ tr0.
Proof.
  intros Hinit Heval.
  pose proof (init_does_not_eval_learning_rate cfg) as Hno.
  rewrite Hinit in Hno. simpl in Hno.
  destruct (init_ok_inv cfg [] tr0 model Hinit) as [-> Hcfg].
  assert (configure_optimizers E model ([] ++ init_events cfg)
          = (([] ++ init_events cfg) ++ [EvEvalLearningRate], Raise e)) as Hopt.
  { unfold configure_optimizers.
    by rewrite !run_bind, run_emit, !run_bind, run_lift, Hcfg, Heval. }
  split; [exact Hopt|]. split.
  - unfold main_fit. by rewrite run_bind, Hinit.
  - split; [|split; [|exact Hno]]; simpl; unfold init_events;
      repeat constructor.
Qed.

End Startup.

(** ** The sample setting, run *)

(** Task-agnostic mode with cosine weight 1/2: the only configuration in
    which [calculate_loss] returns. *)
Example calculate_loss_sample_returns :
  calculate_loss (sample_E true) (sample_self true (1 # 2) true)
    sample_student_results sample_teacher_results None []
  = ([], Ok (PTensor0 (81600000 # 144000000),
             PTensor1 [640 # 800; 440 # 800; 640 # 800]%Q)).
Proof. vm_compute. reflexivity. Qed.

(** Cosine weight 0: [TypeError] at line 231. *)
Example calculate_loss_sample_weight_zero :
  regression_and_cosine (sample_E true) (sample_self true 0 true)
    sample_student_results sample_teacher_results
  = Ok {| rec_loss := PTensor0 (5 # 12);
          rec_layer_loss := PTensor1 [2 # 4; 1 # 4; 2 # 4]%Q;
          sim_loss := PNum 0; sim_layer_loss := PNone;
          total_loss := PTensor0 (5 # 12) |} /\
  calculate_loss (sample_E true) (sample_self true 0 true)
    sample_student_results sample_teacher_results None []
  = ([], Raise TypeError).
Proof. split; vm_compute; reflexivity. Qed.

(** Task-specific mode, ground-truth targets, two labelled utterances:
    [AttributeError] at line 256. *)
Example calculate_loss_sample_task_specific :
  calculate_loss (sample_E false) (sample_self false (1 # 2) true)
    sample_student_results sample_teacher_results (Some ["CAT"; "HELLO"]) []
  = ([EvCtcLogSoftmax; EvCtcTargetGT; EvCtcLoss],
     Raise (AttributeError "append")).
Proof. vm_compute. reflexivity. Qed.

(** The three steps on one task-agnostic batch. *)
Example steps_sample_task_agnostic :
  training_step (sample_E true) (sample_self true (1 # 2) true)
    (sample_batch None) []
  = ([EvTeacherForward; EvStudentForward;
      EvLog "loss1"; EvLog "loss2"; EvLog "loss3"],
     Ok (PTensor0 (81600000 # 144000000))) /\
  validation_step (sample_E true) (sample_self true (1 # 2) true)
    (sample_batch None) []
  = ([EvTeacherForward; EvStudentForward; EvLog "v_loss"],
     Ok (PTensor0 (81600000 # 144000000))) /\
  test_step (sample_E true) (sample_self true (1 # 2) true)
    (sample_batch None) []
  = ([EvTeacherForward; EvStudentForward; EvLog "test_loss"],
     Ok (PTensor1 [157440000000 # 115200000000;
                   128640000000 # 115200000000;
                   157440000000 # 115200000000]%Q)).
Proof. repeat split; vm_compute; reflexivity. Qed.

(** A learning rate that does not evaluate, in a full training run. *)
Example main_fit_sample_bad_learning_rate :
  main_fit (sample_E true) (sample_cfg (1 # 2) true "1e-4 *") []
  = ([EvLoadMetric "wer"; EvLoadMetric "cer";
      EvLoadTeacher "wav2vec2_base"; EvFreezeTeacher; EvDumpYaml;
      EvConstructStudent; EvBuildDataset; EvBuildDataset; EvBuildDataset;
      EvEvalLearningRate],
     Raise EvalError).
Proof. vm_compute. reflexivity. Qed.

Example main_fit_sample_good_learning_rate :
  main_fit (sample_E true) (sample_cfg (1 # 2) true "1e-4") []
  = ([EvLoadMetric "wer"; EvLoadMetric "cer";
      EvLoadTeacher "wav2vec2_base"; EvFreezeTeacher; EvDumpYaml;
      EvConstructStudent; EvBuildDataset; EvBuildDataset; EvBuildDataset;
      EvEvalLearningRate; EvBuildOptimizer; EvGetScheduler 25 500],
     Ok 500).
Proof. vm_compute. reflexivity. Qed.

(** ** Instances of the theorems at the sample setting *)

Lemma calculate_loss_cosine_weight_zero_raises_witness :
  (exists e,
     calculate_loss (sample_E true) (sample_self true 0 true)
       sample_student_results sample_teacher_results None []
     = ([], Raise e)) /\
  (forall terms,
     regression_and_cosine (sample_E true) (sample_self true 0 true)
       sample_student_results sample_teacher_results = Ok terms ->
     (exists v, rec_layer_loss terms = PTensor1 v) /\
     sim_layer_loss terms = PNone /\
     calculate_loss (sample_E true) (sample_self true 0 true)
       sample_student_results sample_teacher_results None []
     = ([], Raise TypeError)).
Proof.
  apply (calculate_loss_cosine_weight_zero_raises (sample_E true)
           (sample_self true 0 true)).
  reflexivity.
Defined.

Lemma total_loss_weight_zero_not_returned_witness :
  exists terms,
    regression_and_cosine (sample_E true) (sample_self true 0 true)
      sample_student_results sample_teacher_results = Ok terms /\
    (exists r t, rec_loss terms = PTensor0 r /\ sim_loss terms = PNum 0 /\
       total_loss terms = PTensor0 t /\ (t == r)%Q) /\
    calculate_loss (sample_E true) (sample_self true 0 true)
      sample_student_results sample_teacher_results None []
    = ([], Raise TypeError).
Proof.
  eexists. split; [vm_compute; reflexivity|].
  apply (total_loss_weight_zero_not_returned (sample_E true)
           (sample_self true 0 true)).
  - vm_compute. reflexivity.
  - reflexivity.
Defined.

Lemma calculate_loss_task_specific_raises_witness :
  exists tr' e,
    calculate_loss (sample_E false) (sample_self false (1 # 2) true)
      sample_student_results sample_teacher_results
      (Some ["CAT"; "HELLO"]) []
    = (tr', Raise e).
Proof.
  apply (calculate_loss_task_specific_raises (sample_E false)
           (sample_self false (1 # 2) true)).
  reflexivity.
Defined.

Lemma test_step_loss_is_not_total_witness :
  exists total layers tr'',
    training_step (sample_E true) (sample_self true (1 # 2) true)
      (sample_batch None) [] = (tr'', Ok (PTensor0 total)) /\
    PTensor1 [157440000000 # 115200000000; 128640000000 # 115200000000;
              157440000000 # 115200000000]%Q
    = PTensor1 (map (fun l => (0 + total + l)%Q) layers) /\
    PTensor1 [157440000000 # 115200000000; 128640000000 # 115200000000;
              157440000000 # 115200000000]%Q
    <> PTensor0 total.
Proof.
  apply (test_step_loss_is_not_total (sample_E true)
           (sample_self true (1 # 2) true) (sample_batch None) []
           [EvTeacherForward; EvStudentForward; EvLog "test_loss"]).
  vm_compute. reflexivity.
Defined.

Lemma task_agnostic_steps_compute_no_ctc_witness :
  no_ctc (training_step (sample_E true) (sample_self true (1 # 2) true)
            (sample_batch None) []).1 /\
  no_ctc (validation_step (sample_E true) (sample_self true (1 # 2) true)
            (sample_batch None) []).1 /\
  no_ctc (test_step (sample_E true) (sample_self true (1 # 2) true)
            (sample_batch None) []).1.
Proof.
  apply (task_agnostic_steps_compute_no_ctc (sample_E true)
           (sample_self true (1 # 2) true)).
  - reflexivity.
  - constructor.
Defined.

Lemma gt_target_construction_witness :
  size char_dict = 32%nat /\
  label_tokens "CAT" = Ok [19; 7; 6] /\
  exists gt_tokens target,
    Forall2 (fun label toks =>
               Forall2 (fun c t => char_dict !! c = Some t) (chars label) toks)
            ["CAT"; "HELLO"] gt_tokens /\
    target = concat gt_tokens /\
    gt_target ["CAT"; "HELLO"] = Ok (target, [3; 5]%nat) /\
    length target = 8%nat /\
    ([3; 5]%nat = [3; 5]%nat -> length target = 8%nat).
Proof.
  apply (gt_target_construction ["CAT"; "HELLO"]).
  - discriminate.
  - apply (bool_decide_unpack _). vm_compute. reflexivity.
Defined.

Lemma gt_target_total_only_on_alphabet_witness :
  exists c, char_dict !! c = None /\
    calculate_loss (sample_E false) (sample_self false (1 # 2) true)
      sample_student_results sample_teacher_results
      (Some ["CAT"; "Hello"]) []
    = ([EvCtcLogSoftmax; EvCtcTargetGT], Raise (KeyError c)).
Proof.
  destruct gt_target_total_only_on_alphabet as (_ & _ & _ & _ & _ & H).
  eapply (H (sample_E false) (sample_self false (1 # 2) true)
            sample_student_results sample_teacher_results
            ["CAT"; "Hello"] []).
  - reflexivity.
  - reflexivity.
  - vm_compute. reflexivity.
  - vm_compute. reflexivity.
  - intros Hall. apply Forall_cons in Hall as [_ Hall].
    apply Forall_cons in Hall as [Hhello _].
    apply Forall_cons in Hhello as [_ Hello].
    apply Forall_cons in Hello as [[v Hv] _].
    vm_compute in Hv. discriminate.
Defined.

(** [encoder_embed_dim] is in the teacher configuration (768) and in the
    distiller section (256); the resolved configuration holds the
    teacher's 768. [encoder_layers] is in both as well (12 and 2) and
    resolves to the override 2. *)
Example resolve_sample :
  exists resolved,
    resolve_student_config (sample_E true) sample_teacher_cfg true
      sample_distiller_extra = Ok resolved /\
    resolved !! "encoder_embed_dim" = Some (VInt 768) /\
    resolved !! "encoder_layers" = Some (VInt 2) /\
    resolved !! "tr_layer_floor" = Some (VInt 0) /\
    resolved !! "tr_layer_index" = None.
Proof. eexists. repeat split; vm_compute; reflexivity. Qed.

Lemma resolved_assigned_attrs_take_override_witness :
  exists resolved,
    resolve_student_config (sample_E true) sample_teacher_cfg true
      sample_distiller_extra = Ok resolved /\
    (forall key attr, (key, attr) ∈ override_table ->
       resolved !! attr = sample_distiller_extra !! key) /\
    resolved !! "teacher_task_agnostic" = Some (VBool true) /\
    (forall a, a ∉ assigned_attrs ->
       resolved !! a =
       match sample_teacher_cfg !! a with
       | Some v =>
           if bool_decide
                (a ∈ get_all_attributes (sample_E true)
                       (CustomStudentModelConfig (sample_E true)))
           then Some v else CustomStudentModelConfig (sample_E true) !! a
       | None => CustomStudentModelConfig (sample_E true) !! a
       end).
Proof.
  apply (resolved_assigned_attrs_take_override (sample_E true)
           sample_teacher_cfg sample_distiller_extra true).
  intros k Hk. unfold required_keys, override_table in Hk. simpl in Hk.
  repeat (apply elem_of_cons in Hk as [->|Hk]; [vm_compute; eauto|]).
  by apply elem_of_nil in Hk.
Defined.

Lemma lr_failure_is_fail_fast_fails :
  ~ lr_failure_is_fail_fast (sample_E true)
      (sample_cfg (1 # 2) true "1e-4 *").
Proof.
  intros H. destruct (H EvalError) as (tr & e' & Hrun & _ & Hno).
  { vm_compute. reflexivity. }
  rewrite main_fit_sample_bad_learning_rate in Hrun.
  injection Hrun as <- _. apply Hno. repeat constructor.
Qed.

Lemma learning_rate_failure_surfaces_in_configure_optimizers_witness :
  main_fit (sample_E true) (sample_cfg (1 # 2) true "1e-4 *") []
  = (init_events (sample_cfg (1 # 2) true "1e-4 *") ++ [EvEvalLearningRate],
     Raise EvalError) /\
  EvConstructStudent ∈ init_events (sample_cfg (1 # 2) true "1e-4 *").
Proof.
  destruct (learning_rate_failure_surfaces_in_configure_optimizers
              (sample_E true) (sample_cfg (1 # 2) true "1e-4 *")
              {| yaml_cfg_of := sample_cfg (1 # 2) true "1e-4 *";
                 teacher_model := tt : teacher_t (sample_E true);
                 task_agnostic := true;
                 student_config :=
                   <["teacher_task_agnostic" := VBool true]>
                     (<["pred_layer_id" := VInts [0; 1; 2]]>
                     (<["proj_head_final_dim" := VInt 2]>
                     (<["proj_head_inter_dim" := VInt 0]>
                     (<["init_encoder_layers" := VInt 0]>
                     (<["init_conv_layers" := VInt 0]>
                     (<["tr_layer_floor" := VInt 0]>
                     (<["type_of_tr_layer" := VStr "fc1"]>
                     (<["enable_tr_layer" := VBool false]>
                     (<["encoder_layers" := VInt 2]>
                        {[ "encoder_embed_dim" := VInt 768;
                           "encoder_layers" := VInt 12 ]})))))))));
                 student_model := [0; 1; 2] : student_t (sample_E true);
                 train_data := 100 : dataset_t (sample_E true);
                 eval_data := 100 : dataset_t (sample_E true);
                 test_data := 100 : dataset_t (sample_E true) |}
              (init_events (sample_cfg (1 # 2) true "1e-4 *")) EvalError)
    as (_ & Hrun & _ & Hstudent & _).
  - vm_compute. reflexivity.
  - vm_compute. reflexivity.
  - split; [exact Hrun|exact Hstudent].
Defined.

Example init_sample_missing_key :
  init (sample_E true) sample_cfg_missing_key []
  = ([EvLoadMetric "wer"; EvLoadMetric "cer";
      EvLoadTeacher "wav2vec2_base"; EvFreezeTeacher],
     Raise (KeyError "pred_layer_id")).
Proof. vm_compute. reflexivity. Qed.

Lemma init_missing_required_key_raises_witness :
  exists tr e,
    init (sample_E true) sample_cfg_missing_key [] = (tr, Raise e) /\
    (EvConstructStudent ∉ tr) /\
    tr = [EvLoadMetric "wer"; EvLoadMetric "cer";
          EvLoadTeacher (teacher sample_cfg_missing_key); EvFreezeTeacher] /\
    exists k', k' ∈ required_keys /\
      distiller sample_cfg_missing_key !! k' = None /\ e = KeyError k'.
Proof.
  destruct (init_missing_required_key_raises (sample_E true)
              sample_cfg_missing_key "pred_layer_id")
    as (tr & e & Hrun & Hno & Hkey).
  - unfold required_keys, override_table. simpl. repeat constructor.
  - vm_compute. reflexivity.
  - exists tr, e. split; [exact Hrun|]. split; [exact Hno|].
    exact (Hkey eq_refl eq_refl _ eq_refl).
Defined.

(** * Further properties of the configuration resolver *)

Section ResolverMore.

Context (E : Collaborators).

Lemma required_keys_cases (P : string -> Prop) :
  P "encoder_layers" -> P "enable_tr_layer" -> P "type_of_tr_layer" ->
  P "tr_layer_index" -> P "init_conv_layers" -> P "init_encoder_layers" ->
  P "pred_head_inter_dim" -> P "pred_head_final_dim" -> P "pred_layer_id" ->
  forall k, k ∈ required_keys -> P k.
Proof.
  intros ? ? ? ? ? ? ? ? ? k Hk.
  unfold required_keys, override_table in Hk. simpl in Hk.
  repeat (apply elem_of_cons in Hk as [->|Hk]; [done|]).
  by apply elem_of_nil in Hk.
Qed.

Lemma required_key_elem (k : string) :
  k ∈ ["encoder_layers"; "enable_tr_layer"; "type_of_tr_layer";
       "tr_layer_index"; "init_conv_layers"; "init_encoder_layers";
       "pred_head_inter_dim"; "pred_head_final_dim"; "pred_layer_id"] ->
  k ∈ required_keys.
Proof. done. Qed.

(** A run to the end of lines 297-310 has found every required key. *)
Lemma update_student_config_ok_inv (ta : bool)
    (cfg sc resolved : gmap string cfg_value) :
  update_student_config ta cfg sc = Ok resolved ->
  forall k, k ∈ required_keys -> is_Some (cfg !! k).
Proof.
  intros Hrun k Hk. destruct (cfg !! k) as [v|] eqn:Hlook; [by eexists|].
  destruct (update_student_config_missing ta cfg sc k Hk Hlook)
    as (k' & _ & _ & Hraise).
  congruence.
Qed.

(** X1: [update_student_config] reads the nine required keys and nothing
    else: two distiller sections that agree on these keys resolve to the
    same student configuration (or fail with the same exception),
    whatever else they contain. *)
Theorem resolve_depends_on_required_keys_only
    (teacher_config cfg1 cfg2 : gmap string cfg_value) (ta : bool) :
  (forall k, k ∈ required_keys -> cfg1 !! k = cfg2 !! k) ->
  resolve_student_config E teacher_config ta cfg1
  = resolve_student_config E teacher_config ta cfg2.
Proof.
  intros Hagree. unfold resolve_student_config, update_student_config, getitem.
  rewrite (Hagree "encoder_layers"), (Hagree "enable_tr_layer"),
    (Hagree "type_of_tr_layer"), (Hagree "tr_layer_index"),
    (Hagree "init_conv_layers"), (Hagree "init_encoder_layers"),
    (Hagree "pred_head_inter_dim"), (Hagree "pred_head_final_dim"),
    (Hagree "pred_layer_id")
    by (apply required_key_elem; repeat constructor).
  reflexivity.
Qed.

(** X2: the [KeyError] of [update_student_config] names the first
    required key, in the order of the reads of lines 297-309, that the
    distiller section lacks; later absent keys are not reported. *)
Theorem update_student_config_reports_first_missing_key (ta : bool)
    (cfg sc : gmap string cfg_value) (pre post : list string) (k : string) :
  required_keys = pre ++ k :: post ->
  (forall k', k' ∈ pre -> is_Some (cfg !! k')) ->
  cfg !! k = None ->
  update_student_config ta cfg sc = Raise (KeyError k).
Proof.
  intros Hsplit Hpre Hk.
  assert (forall k', k' ∈ pre -> exists v, cfg !! k' = Some v) as Hget
    by (intros k' Hin; by apply Hpre).
  unfold required_keys, override_table in Hsplit. simpl in Hsplit.
  unfold update_student_config, getitem.
  repeat
    (destruct pre as [|? pre];
     [ injection Hsplit as <- _; by rewrite Hk
     | let v := fresh "v" in let Hv := fresh "Hv" in
       injection Hsplit as <- Hsplit;
       destruct (Hget _ ltac:(repeat constructor)) as [v Hv];
       rewrite Hv; simpl;
       assert (forall k', k' ∈ pre -> exists v, cfg !! k' = Some v)
         by (intros k' Hin; apply Hget; by right);
       clear Hget; rename H into Hget ]).
  destruct pre; discriminate Hsplit.
Qed.

Lemma assigned_attrs_cases (a : string) :
  a ∈ assigned_attrs ->
  a = "teacher_task_agnostic" \/ exists key, (key, a) ∈ override_table.
Proof.
  unfold assigned_attrs, override_table. simpl. intros Ha.
  repeat (apply elem_of_cons in Ha as [->|Ha];
          [right; eexists; by repeat constructor|]).
  apply elem_of_cons in Ha as [->|Ha]; [by left|].
  by apply elem_of_nil in Ha.
Qed.

Lemma override_table_key_required (key attr : string) :
  (key, attr) ∈ override_table -> key ∈ required_keys.
Proof.
  intros Hin. unfold required_keys.
  apply (list_elem_of_fmap_2 fst) in Hin. exact Hin.
Qed.

(** X3: [update_student_config] is idempotent: a second call with the
    same distiller section leaves the student configuration as the first
    call made it. *)
Theorem update_student_config_idempotent (ta : bool)
    (cfg sc resolved : gmap string cfg_value) :
  update_student_config ta cfg sc = Ok resolved ->
  update_student_config ta cfg resolved = Ok resolved.
Proof.
  intros Hrun.
  pose proof (update_student_config_ok_inv ta cfg sc resolved Hrun) as Hreq.
  destruct (update_student_config_ok ta cfg sc Hreq)
    as (r1 & Hr1 & Htab1 & Hta1 & Hrest1).
  assert (r1 = resolved) as -> by congruence.
  destruct (update_student_config_ok ta cfg resolved Hreq)
    as (r2 & Hr2 & Htab2 & Hta2 & Hrest2).
  rewrite Hr2. f_equal. apply map_eq. intros a.
  destruct (decide (a ∈ assigned_attrs)) as [Ha|Ha].
  - apply assigned_attrs_cases in Ha as [->|[key Hkey]].
    + by rewrite Hta1, Hta2.
    + by rewrite (Htab1 _ _ Hkey), (Htab2 _ _ Hkey).
  - by apply Hrest2.
Qed.

(** X4: the attribute names of a resolved student configuration are the
    ten names that [update_student_config] assigns, the names of the
    student defaults, and the teacher's names that the student schema
    lists; no other teacher attribute and no other distiller key becomes
    an attribute. *)
Theorem resolved_attribute_names
    (teacher_config cfg resolved : gmap string cfg_value) (ta : bool) :
  resolve_student_config E teacher_config ta cfg = Ok resolved ->
  forall a,
    is_Some (resolved !! a) <->
    a ∈ assigned_attrs \/
    is_Some (CustomStudentModelConfig E !! a) \/
    (is_Some (teacher_config !! a) /\
     a ∈ get_all_attributes E (CustomStudentModelConfig E)).
Proof.
  unfold resolve_student_config. intros Hrun a.
  pose proof (update_student_config_ok_inv _ _ _ _ Hrun) as Hreq.
  destruct (update_student_config_ok ta cfg
              (copy_teacher_attrs
                 (get_all_attributes E (CustomStudentModelConfig E))
                 teacher_config (CustomStudentModelConfig E)) Hreq)
    as (r1 & Hr1 & Htab & Hta & Hrest).
  assert (r1 = resolved) as -> by congruence.
  destruct (decide (a ∈ assigned_attrs)) as [Ha|Ha].
  - split; [by left|]. intros _.
    apply assigned_attrs_cases in Ha as [->|[key Hkey]].
    + by rewrite Hta.
    + rewrite (Htab _ _ Hkey). apply Hreq.
      by eapply override_table_key_required.
  - rewrite (Hrest a Ha), copy_teacher_attrs_lookup.
    destruct (teacher_config !! a) as [v|] eqn:Hteacher.
    + case_bool_decide as Hschema.
      * split; [intros _; right; right; split; [by eexists|done]|].
        intros _. by eexists.
      * split; [intros Hbase; by right; left|].
        intros [Hin|[Hbase|[_ Hin]]]; done.
    + split; [intros Hbase; by right; left|].
      intros [Hin|[Hbase|[[? [=]] _]]]; done.
Qed.

(** What a completed [__init__] has put together. *)
Lemma init_ok_fields cfg tr tr' (model : W2V2Distil E) :
  init E cfg tr = (tr', Ok model) ->
  exists teacher_config,
    load_model_and_config E (teacher cfg)
      = Ok (teacher_model model, teacher_config, task_agnostic model) /\
    resolve_student_config E teacher_config (task_agnostic model)
      (distiller cfg) = Ok (student_config model) /\
    CustomStudentModel E (student_config model) (teacher_model model)
      = Ok (student_model model).
Proof.
  unfold init, load_and_resolve.
  rewrite !run_bind, run_emit, !run_bind, run_lift.
  destruct (load_metric E "wer") as [[]|e]; [|discriminate].
  rewrite !run_bind, run_emit, !run_bind, run_lift.
  destruct (load_metric E "cer") as [[]|e]; [|discriminate].
  rewrite !run_bind, run_emit, !run_bind, run_lift.
  destruct (load_model_and_config E (teacher cfg)) as [[[tm tc] ta]|e];
    [|discriminate].
  rewrite !run_bind, run_emit, !run_bind, run_lift.
  destruct (resolve_student_config E tc ta (distiller cfg)) as [sc|e] eqn:Hsc;
    [|discriminate].
  rewrite run_ret, !run_bind, run_emit, !run_bind, run_lift.
  destruct (dump_yaml E sc cfg) as [[]|e]; [|discriminate].
  rewrite !run_bind, run_emit, !run_bind, run_lift.
  destruct (CustomStudentModel E sc tm) as [sm|e] eqn:Hsm; [|discriminate].
  rewrite !run_bind, run_emit, !run_bind, run_lift.
  destruct (LibriDataset E _ _ (train_set _) _) as [trd|e]; [|discriminate].
  rewrite !run_bind, run_emit, !run_bind, run_lift.
  destruct (LibriDataset E _ _ ["dev-clean"] _) as [evd|e]; [|discriminate].
  rewrite !run_bind, run_emit, !run_bind, run_lift.
  destruct (LibriDataset E _ _ (test_set _) _) as [ted|e]; [|discriminate].
  rewrite run_ret. intros [= <- <-]. simpl. eauto.
Qed.

(** X5: after a completed [__init__] the module and its student
    configuration agree: the attribute [teacher_task_agnostic] holds the
    module's [task_agnostic] flag, [pred_layer_id] holds the distiller
    section's entry, the student model was constructed from exactly this
    configuration, and the trace shows the teacher loaded and frozen
    before the one construction of the student. *)
Theorem init_module_consistent cfg tr (model : W2V2Distil E) :
  init E cfg [] = (tr, Ok model) ->
  student_config model !! "teacher_task_agnostic"
    = Some (VBool (task_agnostic model)) /\
  student_config model !! "pred_layer_id" = distiller cfg !! "pred_layer_id" /\
  is_Some (distiller cfg !! "pred_layer_id") /\
  CustomStudentModel E (student_config model) (teacher_model model)
    = Ok (student_model model) /\
  yaml_cfg_of model = cfg /\
  tr = init_events cfg.
Proof.
  intros Hinit.
  destruct (init_ok_fields cfg [] tr model Hinit) as (tc & _ & Hres & Hsm).
  destruct (init_ok_inv E cfg [] tr model Hinit) as [Htr Hcfg].
  unfold resolve_student_config in Hres.
  pose proof (update_student_config_ok_inv _ _ _ _ Hres) as Hreq.
  destruct (update_student_config_ok (task_agnostic model) (distiller cfg)
              (copy_teacher_attrs
                 (get_all_attributes E (CustomStudentModelConfig E))
                 tc (CustomStudentModelConfig E)) Hreq)
    as (r1 & Hr1 & Htab & Hta & _).
  assert (r1 = student_config model) as -> by congruence.
  split; [exact Hta|]. split.
  { apply Htab. unfold override_table. repeat constructor. }
  split.
  { apply Hreq, required_key_elem. repeat constructor. }
  done.
Qed.

End ResolverMore.

(** * Further properties of the ground-truth targets *)

Lemma chars_single (label c : string) :
  c ∈ chars label -> exists a, c = String a "".
Proof.
  unfold chars. intros (a & -> & _)%list_elem_of_fmap. by exists a.
Qed.

Lemma chars_inj (l1 l2 : string) : chars l1 = chars l2 -> l1 = l2.
Proof.
  unfold chars. revert l2.
  induction l1 as [|a l1 IH]; intros [|b l2]; simpl; try done.
  intros [= -> H]. f_equal. by apply IH.
Qed.

(** A character that [char_dict] accepts gets a token from 4 to 31. *)
Lemma single_char_token_range (a : ascii) (t : Z) :
  char_dict !! String a "" = Some t -> 4 <= t <= 31.
Proof.
  destruct a as [[] [] [] [] [] [] [] []]; vm_compute; intros H;
    first [discriminate H | injection H as <-; split; discriminate].
Qed.

(** [token_key] inverts [char_dict]: the 32 tokens are pairwise
    distinct. *)
Lemma token_key_lookup (c : string) (t : Z) :
  char_dict !! c = Some t -> token_key t = Some c.
Proof.
  intros H%elem_of_map_to_list. unfold token_key.
  revert H. generalize (eq_refl (map_to_list char_dict)).
  generalize (map_to_list char_dict) at 1 3 4.
  intros l Hl. vm_compute in Hl. subst l. intros H.
  repeat (apply elem_of_cons in H as [[= -> ->]|H]; [by vm_compute|]).
  by apply elem_of_nil in H.
Qed.

Lemma label_tokens_inj (l1 l2 : string) (toks : list Z) :
  label_tokens l1 = Ok toks -> label_tokens l2 = Ok toks -> l1 = l2.
Proof.
  intros H1%label_tokens_ok_inv H2%label_tokens_ok_inv.
  apply chars_inj. revert H2. generalize (chars l2).
  induction H1 as [|c t cs ts Hc _ IH]; intros cs2 H2.
  - by apply Forall2_nil_inv_r in H2.
  - apply Forall2_cons_inv_r in H2 as (c2 & cs2' & Hc2 & H2 & ->).
    apply token_key_lookup in Hc, Hc2.
    f_equal; [congruence|by apply IH].
Qed.

Lemma concat_inj_lengths {X} (xs ys : list (list X)) :
  map (@length X) xs = map (@length X) ys ->
  concat xs = concat ys -> xs = ys.
Proof.
  revert ys. induction xs as [|x xs IH]; intros [|y ys]; simpl; try done.
  intros [= Hlen Hlens] Hcat.
  apply app_inj_1 in Hcat as [-> Hcat]; [|done].
  f_equal. by apply IH.
Qed.

Lemma label_tokens_range (label : string) (toks : list Z) :
  label_tokens label = Ok toks -> Forall (fun t => 4 <= t <= 31) toks.
Proof.
  intros H%label_tokens_ok_inv. unfold chars in H.
  revert toks H. induction (list_ascii_of_string label) as [|a l IH];
    intros toks H.
  - apply Forall2_nil_inv_l in H as ->. constructor.
  - apply Forall2_cons_inv_l in H as (t & ts & Ht & H & ->).
    constructor; [by eapply single_char_token_range|by apply IH].
Qed.

(** X6: a ground-truth target never holds one of the four special
    tokens ([<s>] 0, [<pad>] 1, [</s>] 2, [<unk>] 3): whenever lines
    239-241 succeed, every entry of the concatenated target lies between
    4 and 31, and the recorded lengths are the lengths of the labels. *)
Theorem gt_target_tokens_in_range (labels : list string)
    (target : list Z) (target_lengths : list nat) :
  gt_target labels = Ok (target, target_lengths) ->
  Forall (fun t => 4 <= t <= 31) target /\
  target_lengths = map String.length labels /\
  length target = sum_list target_lengths.
Proof.
  intros Hrun.
  destruct (gt_target_ok_inv labels _ Hrun) as [Hne Hall].
  destruct (gt_target_ok labels Hne Hall) as (gt_tokens & _ & Hlens & Hrun').
  rewrite Hrun in Hrun'. injection Hrun' as -> ->.
  split; [|split; [done|]].
  - unfold gt_target in Hrun.
    apply rbind_ok_inv in Hrun as (gts & Hgts & Hcat).
    apply rbind_ok_inv in Hcat as (tgt & Hcat & [= <- _]).
    assert (tgt = concat gts) as ->.
    { destruct gts; [discriminate|]. by injection Hcat as <-. }
    apply Forall_concat. apply comprehension_ok_inv in Hgts.
    clear -Hgts. induction Hgts as [|label toks ? ? Hl _ IH]; constructor;
      [by eapply label_tokens_range|done].
  - by rewrite sum_list_lengths_concat, Hlens.
Qed.

(** X7: ground-truth target construction loses nothing: two batches of
    labels with the same concatenated target and the same recorded
    lengths are the same batch (the tokens of [char_dict] are pairwise
    distinct and the lengths mark the cuts). *)
Theorem gt_target_injective (labels1 labels2 : list string)
    (r : list Z * list nat) :
  gt_target labels1 = Ok r -> gt_target labels2 = Ok r -> labels1 = labels2.
Proof.
  unfold gt_target. intros H1 H2.
  apply rbind_ok_inv in H1 as (gts1 & Hg1 & H1).
  apply rbind_ok_inv in H1 as (t1 & Hc1 & [= <-]).
  apply rbind_ok_inv in H2 as (gts2 & Hg2 & H2).
  apply rbind_ok_inv in H2 as (t2 & Hc2 & [= -> Hlens]).
  assert (t1 = concat gts1) as ->
    by (destruct gts1; [discriminate|by injection Hc1 as <-]).
  assert (concat gts1 = concat gts2) as Hcat
    by (destruct gts2; [discriminate|by injection Hc2 as <-]).
  assert (gts2 = gts1) as -> by (symmetry; by apply concat_inj_lengths).
  apply comprehension_ok_inv in Hg1, Hg2. clear -Hg1 Hg2.
  revert labels2 Hg2. induction Hg1 as [|l1 toks ls1 gts Hl1 _ IH];
    intros labels2 Hg2.
  - by apply Forall2_nil_inv_r in Hg2.
  - apply Forall2_cons_inv_r in Hg2 as (l2 & ls2 & Hl2 & Hg2 & ->).
    f_equal; [by eapply label_tokens_inj|by apply IH].
Qed.

(** * Further properties of the steps *)

Section StepsMore.

Context (E : Collaborators).
Implicit Types (self : W2V2Distil E) (sr : student_results)
  (tres : teacher_results) (b : batch).

Lemma call_calculate_loss_ok_inv self b sr tres tr tr' total losses :
  call_calculate_loss E self b sr tres tr = (tr', Ok (total, losses)) ->
  task_agnostic self = true /\ tr' = tr /\
  Qle_bool (cosine_weight (train (yaml_cfg_of self))) 0 = false /\
  exists t v, total = PTensor0 t /\ losses = PTensor1 v.
Proof.
  unfold call_calculate_loss. intros Hcall.
  destruct (task_agnostic self) eqn:Hta; simpl in Hcall.
  - apply calculate_loss_ok_inv in Hcall
      as (_ & -> & Hw & terms & t & v & _ & _ & -> & ->). eauto 8.
  - rewrite run_bind, run_lift in Hcall.
    destruct (batch_labels b); [|discriminate].
    apply calculate_loss_ok_inv in Hcall as (Hta' & _). congruence.
Qed.

(** X8: a training, validation or test step returns only in
    task-agnostic mode with a positive cosine weight; in task-specific
    mode, or with a weight that is not positive, every step ends in an
    exception. *)
Theorem steps_return_only_task_agnostic_positive_weight self b tr tr' loss :
  training_step E self b tr = (tr', Ok loss) \/
  validation_step E self b tr = (tr', Ok loss) \/
  test_step E self b tr = (tr', Ok loss) ->
  task_agnostic self = true /\
  (0 < cosine_weight (train (yaml_cfg_of self)))%Q.
Proof.
  assert (forall sr tres tr1 tr2 r,
            call_calculate_loss E self b sr tres tr1 = (tr2, Ok r) ->
            task_agnostic self = true /\
            (0 < cosine_weight (train (yaml_cfg_of self)))%Q) as Hcall.
  { intros sr tres tr1 tr2 [total losses] H.
    apply call_calculate_loss_ok_inv in H as (Hta & _ & Hw & _).
    split; [done|]. apply Qnot_le_lt. intros Hle%Qle_bool_iff. congruence. }
  unfold training_step, validation_step, test_step.
  intros [H|[H|H]]; rewrite run_bind in H;
    destruct (call_self E self b tr)
      as [tr1 [[sr tres]|e]]; try discriminate;
    rewrite run_bind in H;
    destruct (call_calculate_loss E self b sr tres tr1)
      as [tr2 [r|e]] eqn:Hc; try discriminate;
    by eapply Hcall.
Qed.

(** X9: the training step and the validation step report the same
    loss: on one batch, either both return, and then the same scalar
    total, or neither returns. *)
Theorem training_and_validation_steps_agree self b tr :
  (forall tr1 loss, training_step E self b tr = (tr1, Ok loss) ->
     exists tr2 total, loss = PTensor0 total /\
       validation_step E self b tr = (tr2, Ok loss)) /\
  (forall tr2 loss, validation_step E self b tr = (tr2, Ok loss) ->
     exists tr1 total, loss = PTensor0 total /\
       training_step E self b tr = (tr1, Ok loss)).
Proof.
  unfold training_step, validation_step. rewrite !run_bind.
  destruct (call_self E self b tr)
    as [tr0 [[sr tres]|e]]; [|split; intros; discriminate].
  rewrite !run_bind.
  destruct (call_calculate_loss E self b sr tres tr0)
    as [tr' [[total losses]|e]] eqn:Hcall; [|split; intros; discriminate].
  apply call_calculate_loss_ok_inv in Hcall
    as (Hta & -> & _ & t & v & -> & ->).
  rewrite Hta. simpl negb. cbv iota.
  assert (exists tr'', (if monitor_losses (train (yaml_cfg_of self))
            then ls ← lift (py_iter (PTensor1 v)); log_losses 0 ls
            else mret tt) tr0 = (tr'', Ok tt)) as [tr'' Hlog].
  { destruct (monitor_losses _); [|by eexists].
    rewrite run_bind, run_lift. simpl. apply log_losses_ok. }
  rewrite !run_bind, Hlog, !run_ret, run_bind, run_emit, run_ret.
  split; intros ? loss [= <- <-]; eauto.
Qed.

End StepsMore.

(** * Further properties of the optimizer setup *)

Section OptimizerMore.

Context (E : Collaborators).
Implicit Types (self : W2V2Distil E).

(** The first lines of [configure_optimizers], once the learning rate
    evaluates and the two constructors accept their arguments. *)
Lemma configure_optimizers_prefix self tr lr :
  let cfg := train (yaml_cfg_of self) in
  py_eval E (learning_rate cfg) = Ok lr ->
  AdamW E lr = Ok tt ->
  DataLoader E (train_data self) (gpus cfg * 4) = Ok tt ->
  configure_optimizers E self tr =
  (train_batches ← lift (floordiv (dataset_len E (train_data self)) (gpus cfg));
   num_training_steps ←
     lift (floordiv (num_epochs cfg * train_batches)
             (accumulate_grad_batches cfg));
   emit (EvGetScheduler
           (int_of_float_product E num_training_steps (warmup_ratio cfg))
           num_training_steps);;
   lift (get_optimizer E (student_model self) num_training_steps
           (optimizer (yaml_cfg_of self)));;
   mret num_training_steps)
    (tr ++ [EvEvalLearningRate; EvBuildOptimizer]).
Proof.
  intros cfg Heval Hadam Hloader. unfold configure_optimizers. fold cfg.
  rewrite run_bind, run_emit. cbv beta iota.
  rewrite run_bind, run_lift, Heval. cbv beta iota.
  rewrite run_bind, run_emit. cbv beta iota.
  rewrite run_bind, run_lift, Hadam. cbv beta iota.
  rewrite run_bind, run_lift, Hloader. cbv beta iota.
  by rewrite <- app_assoc.
Qed.

(** X10: with [gpus] or [accumulate_grad_batches] equal to 0, the floor
    divisions of lines 264-265 make [configure_optimizers] raise
    [ZeroDivisionError], provided the learning rate evaluates and the
    optimizer and data loader constructors accept their arguments; this
    happens after the AdamW optimizer was built and before any scheduler
    is made. *)
Theorem configure_optimizers_zero_division self tr lr :
  py_eval E (learning_rate (train (yaml_cfg_of self))) = Ok lr ->
  AdamW E lr = Ok tt ->
  DataLoader E (train_data self) (gpus (train (yaml_cfg_of self)) * 4)
    = Ok tt ->
  gpus (train (yaml_cfg_of self)) = 0 \/
  accumulate_grad_batches (train (yaml_cfg_of self)) = 0 ->
  configure_optimizers E self tr
  = (tr ++ [EvEvalLearningRate; EvBuildOptimizer], Raise ZeroDivisionError).
Proof.
  intros Heval Hadam Hloader Hzero.
  rewrite (configure_optimizers_prefix self tr lr Heval Hadam Hloader).
  rewrite run_bind, run_lift. unfold floordiv at 1.
  destruct (gpus (train (yaml_cfg_of self)) =? 0) eqn:Hg; [done|].
  rewrite run_bind, run_lift. unfold floordiv.
  destruct Hzero as [Hz|Hz]; [apply Z.eqb_neq in Hg; done|].
  by rewrite Hz.
Qed.


End OptimizerMore.

(** * Further properties of the loss composer *)

Lemma list_getitem_in_range {A} (l : list A) (i : Z) :
  index_in_range (length l) i ->
  exists x, list_getitem l i = Ok x /\
    l !! Z.to_nat (if i <? 0 then i + Z.of_nat (length l) else i) = Some x.
Proof.
  unfold index_in_range, list_getitem. intros [Hlo Hhi].
  set (j := if i <? 0 then i + Z.of_nat (length l) else i).
  assert (0 <= j < Z.of_nat (length l)) as [Hj0 Hj1].
  { unfold j. destruct (Z.ltb_spec i 0); lia. }
  destruct (Z.ltb_spec j 0); [lia|].
  destruct (Z.leb_spec (Z.of_nat (length l)) j); [lia|]. simpl.
  destruct (l !! Z.to_nat j) as [x|] eqn:Hx; [by exists x|].
  apply lookup_ge_None in Hx. lia.
Qed.

Lemma list_getitem_out_of_range {A} (l : list A) (i : Z) :
  ~ index_in_range (length l) i -> list_getitem l i = Raise IndexError.
Proof.
  unfold index_in_range, list_getitem. intros Hout.
  set (j := if i <? 0 then i + Z.of_nat (length l) else i).
  assert (j < 0 \/ Z.of_nat (length l) <= j) as Hj.
  { unfold j. destruct (Z.ltb_spec i 0); lia. }
  destruct (Z.ltb_spec j 0); [done|].
  destruct (Z.leb_spec (Z.of_nat (length l)) j); [done|]. lia.
Qed.

Section LossMore.

Context (E : Collaborators).
Implicit Types (self : W2V2Distil E) (sr : student_results)
  (tres : teacher_results) (labels : option (list string)).

(** Lines 204-229 run on the stacked teacher target. *)
Lemma regression_and_cosine_target self sr tres :
  regression_and_cosine E self sr tres =
  (target ← teacher_target E self tres;
   rec_loss ← l1_loss_none (s_projections sr) target;
   let w := cosine_weight (train (yaml_cfg_of self)) in
   let '(sim_loss, sim_layer_loss) :=
     if negb (Qle_bool w 0) then
       let sim := sim_loss_none E (s_projections sr) target in
       (PTensor0 (meanQ (flat3 sim)), PTensor1 (mean_02 sim))
     else (PNum 0, PNone) in
   weighted ← py_mul (PNum w) sim_loss;
   total_loss ← py_add (PTensor0 (meanQ (flat4 rec_loss))) weighted;
   mret {| rec_loss := PTensor0 (meanQ (flat4 rec_loss));
           rec_layer_loss := PTensor1 (mean_023 rec_loss);
           sim_loss := sim_loss; sim_layer_loss := sim_layer_loss;
           total_loss := total_loss |}).
Proof.
  unfold regression_and_cosine, teacher_target.
  destruct (comprehension _ _) as [hiddens|e]; [|reflexivity]. simpl.
  destruct (stack_dim1 hiddens) as [target|e]; reflexivity.
Qed.

Lemma teacher_target_raises self sr tres e :
  teacher_target E self tres = Raise e ->
  regression_and_cosine E self sr tres = Raise e.
Proof. intros H. by rewrite regression_and_cosine_target, H. Qed.

(** X12: [calculate_loss] checks the predicted layer ids only by using
    them. An id outside [-n, n) for a teacher with [n] layer results
    makes it raise [IndexError], and an empty list of predicted layers
    makes [torch.stack] raise [RuntimeError]; either way before any loss
    term is computed and with nothing added to the trace. *)
Theorem calculate_loss_bad_layer_ids self sr tres labels tr :
  let ids := pred_layer_id E (student_model self) in
  (Exists (fun i => ~ index_in_range (length (t_layer_results tres)) i) ids ->
   calculate_loss E self sr tres labels tr = (tr, Raise IndexError)) /\
  (ids = [] ->
   calculate_loss E self sr tres labels tr = (tr, Raise RuntimeError)).
Proof.
  intros ids. split.
  - intros Hbad. apply calculate_loss_prefix_raises, teacher_target_raises.
    unfold teacher_target. fold ids.
    destruct (comprehension _ ids) as [hiddens|e] eqn:Hc.
    + apply comprehension_ok_inv in Hc. exfalso.
      induction Hc as [|i h ids' hs Hi _ IH].
      * by apply Exists_nil in Hbad.
      * apply Exists_cons in Hbad as [Hbad|Hbad]; [|by apply IH].
        by rewrite (list_getitem_out_of_range _ _ Hbad) in Hi.
    + apply comprehension_raise_inv in Hc as (i & _ & Hi). simpl.
      destruct (list_getitem (t_layer_results tres) i) eqn:Hget;
        [discriminate|].
      simpl in Hi. injection Hi as <-.
      unfold list_getitem in Hget.
      repeat (destruct (_ : bool) in Hget || destruct (_ !! _) in Hget);
        congruence.
  - intros Hnil. apply calculate_loss_prefix_raises, teacher_target_raises.
    unfold teacher_target. fold ids. by rewrite Hnil.
Qed.

End LossMore.

(** ** Entries of zipped and transposed tensors *)

Lemma Forall_zip_with_both {A B C} (PA : A -> Prop) (PB : B -> Prop)
    (P : C -> Prop) (f : A -> B -> C) (l : list A) (k : list B) :
  (forall x y, PA x -> PB y -> P (f x y)) ->
  Forall PA l -> Forall PB k -> Forall P (zip_with f l k).
Proof.
  intros Hf Hl. revert k. induction Hl as [|x l Hx _ IH]; intros k Hk.
  - constructor.
  - destruct Hk as [|y k Hy Hk]; simpl; constructor; auto.
Qed.

(** Transposition keeps every entry and, on a rectangle, swaps the two
    lengths. *)
Lemma transpose01_Forall {A} (P : A -> Prop) (rows : list (list A)) :
  Forall (Forall P) rows -> Forall (Forall P) (transpose01 rows).
Proof.
  induction 1 as [|r rs Hr Hrs IH]; [constructor|].
  destruct rs as [|r' rs'].
  - simpl. apply Forall_fmap. eapply Forall_impl; [exact Hr|].
    intros x Hx. simpl. by repeat constructor.
  - change (transpose01 (r :: r' :: rs'))
      with (zip_with cons r (transpose01 (r' :: rs'))).
    eapply Forall_zip_with_both; [|exact Hr|exact IH].
    intros x c Hx Hc. by constructor.
Qed.

Lemma transpose01_rect {A} (rows : list (list A)) (c : nat) :
  rows <> [] -> Forall (fun r => length r = c) rows ->
  length (transpose01 rows) = c /\
  Forall (fun col => length col = length rows) (transpose01 rows).
Proof.
  intros Hne Hall. induction Hall as [|r rs Hr Hrs IH]; [done|].
  destruct rs as [|r' rs'].
  - simpl. rewrite length_map. split; [done|].
    apply Forall_fmap. by apply Forall_true.
  - destruct IH as [IHlen IHcols]; [done|].
    change (transpose01 (r :: r' :: rs'))
      with (zip_with cons r (transpose01 (r' :: rs'))).
    split.
    + rewrite length_zip_with. lia.
    + apply (Forall_zip_with_both (fun _ => True)
                 (fun col => length col = length (r' :: rs'))).
      * intros x col _ Hcol. simpl. by rewrite Hcol.
      * by apply Forall_true.
      * exact IHcols.
Qed.

(** ** Shapes *)

Lemma shape_of_rows_length {A} (sh : A -> option (list nat)) (k : nat)
    (rows : list A) n s :
  shape_of_rows sh k rows = Some (n :: s) -> length rows = n.
Proof.
  unfold shape_of_rows. destruct rows as [|r rest]; [by intros [= <- _]|].
  destruct (sh r); [|discriminate].
  destruct (forallb _ rest); [|discriminate]. by intros [= <- _].
Qed.

Lemma shape_of_rows_nonempty {A} (sh : A -> option (list nat)) (k : nat)
    (rows : list A) n s :
  rows <> [] ->
  shape_of_rows sh k rows = Some (n :: s) <->
  n = length rows /\ Forall (fun r => sh r = Some s) rows.
Proof.
  intros Hne. destruct rows as [|r rest]; [done|]. unfold shape_of_rows.
  split.
  - destruct (sh r) as [s'|] eqn:Hr; [|discriminate].
    destruct (forallb _ rest) eqn:Hall; [|discriminate].
    intros [= <- <-]. split; [done|]. constructor; [done|].
    apply Forall_forall. intros r' Hin.
    rewrite forallb_forall in Hall.
    apply list_elem_of_In in Hin. specialize (Hall r' Hin).
    by apply bool_decide_eq_true in Hall.
  - intros [-> Hall]. apply Forall_cons in Hall as [Hr Hall]. rewrite Hr.
    assert (forallb (fun r' => bool_decide (sh r' = Some s)) rest = true)
      as ->; [|done].
    apply forallb_forall. intros r' Hin%list_elem_of_In.
    apply bool_decide_eq_true. by eapply Forall_forall in Hall.
Qed.

(** Transposing a non-degenerate rectangle of equally shaped entries
    swaps its two outer dimensions. *)
Lemma shape_of_rows_transpose {A} (sh : A -> option (list nat)) (k k' : nat)
    (rows : list (list A)) r c s :
  shape_of_rows (shape_of_rows sh k) k' rows = Some (r :: c :: s) ->
  (1 <= r)%nat -> (1 <= c)%nat ->
  shape_of_rows (shape_of_rows sh k) k' (transpose01 rows)
  = Some (c :: r :: s).
Proof.
  intros Hshape Hr Hc.
  assert (rows <> []) as Hne.
  { intros ->. apply shape_of_rows_length in Hshape. simpl in Hshape. lia. }
  apply shape_of_rows_nonempty in Hshape as [-> Hrows]; [|done].
  assert (Forall (fun row => length row = c) rows) as Hlen.
  { eapply Forall_impl; [exact Hrows|]. intros row Hrow. simpl in Hrow.
    by eapply shape_of_rows_length. }
  assert (Forall (Forall (fun x => sh x = Some s)) rows) as Hentries.
  { eapply Forall_impl; [exact Hrows|]. intros row Hrow. simpl in Hrow.
    assert (row <> []) as Hrne.
    { intros ->. apply shape_of_rows_length in Hrow. simpl in Hrow. lia. }
    by apply shape_of_rows_nonempty in Hrow as [_ ?]. }
  destruct (transpose01_rect rows c Hne Hlen) as [Htlen Hcols].
  apply transpose01_Forall in Hentries.
  apply shape_of_rows_nonempty.
  { intros Hnil. rewrite Hnil in Htlen. simpl in Htlen. lia. }
  split; [done|].
  apply Forall_forall. intros col Hin.
  eapply Forall_forall in Hcols, Hentries; [|exact Hin..].
  apply shape_of_rows_nonempty.
  { intros ->. simpl in Hcols. lia. }
  done.
Qed.

Lemma comprehension_Forall {A B} (f : A -> result B) (P : B -> Prop)
    (xs : list A) :
  Forall (fun x => exists y, f x = Ok y /\ P y) xs ->
  exists ys, comprehension f xs = Ok ys /\ Forall P ys /\
    length ys = length xs.
Proof.
  induction 1 as [|x xs (y & Hy & HP) _ (ys & Hys & HPs & Hlen)].
  - exists []. repeat split; constructor.
  - exists (y :: ys). simpl. rewrite Hy. simpl. rewrite Hys. simpl.
    repeat split; [by constructor|by rewrite Hlen].
Qed.

Lemma shape4_rows (t : tensor4) b n s :
  shape4 t = Some (b :: n :: s) ->
  length t = b /\ Forall (fun row => length row = n) t.
Proof.
  intros Hshape. split; [by eapply shape_of_rows_length|].
  destruct t as [|r rest]; [constructor|].
  apply shape_of_rows_nonempty in Hshape as [_ Hrows]; [|done].
  eapply Forall_impl; [exact Hrows|]. intros row Hrow. simpl in Hrow.
  by eapply shape_of_rows_length.
Qed.

Lemma zip_with_rows_rect {X Y Z} (g : X -> Y -> Z)
    (p : list (list X)) (t : list (list Y)) (n : nat) :
  Forall (fun row => length row = n) p ->
  Forall (fun row => length row = n) t ->
  Forall (fun row => length row = n) (zip_with (zip_with g) p t).
Proof.
  apply Forall_zip_with_both. intros r1 r2 H1 H2.
  rewrite length_zip_with. lia.
Qed.

Lemma length_transpose_zip_with {X Y Z} (g : X -> Y -> Z)
    (p : list (list X)) (t : list (list Y)) (b n : nat) :
  (1 <= b)%nat -> length p = b -> length t = b ->
  Forall (fun row => length row = n) p ->
  Forall (fun row => length row = n) t ->
  length (transpose01 (zip_with (zip_with g) p t)) = n.
Proof.
  intros Hb Hp Ht Hprows Htrows.
  apply transpose01_rect; [|by apply zip_with_rows_rect].
  intros Hnil. apply (f_equal length) in Hnil.
  rewrite length_zip_with in Hnil. simpl in Hnil. lia.
Qed.

Lemma rbind_ok {A B} (a : A) (k : A -> result B) : Ok a ≫= k = k a.
Proof. reflexivity. Qed.

Section LossShapes.

Context (E : Collaborators).
Implicit Types (self : W2V2Distil E) (sr : student_results)
  (tres : teacher_results) (labels : option (list string)) (b : batch).

(** On well-shaped inputs lines 204-209 yield a target of the shape of
    the projections. *)
Lemma teacher_target_well_shaped self sr tres T B D :
  well_shaped E self sr tres T B D ->
  exists target,
    teacher_target E self tres = Ok target /\
    shape4 target
    = Some [B; length (pred_layer_id E (student_model self)); T; D].
Proof.
  intros (Hne & Hrange & Hlayers & HT & HB & _).
  set (ids := pred_layer_id E (student_model self)) in *.
  destruct (comprehension_Forall
              (fun i => lr ← list_getitem (t_layer_results tres) i;
                        mret (transpose01 lr))
              (fun h => shape3 h = Some [B; T; D]) ids)
    as (hiddens & Hcomp & Hshapes & Hlen).
  { eapply Forall_impl; [exact Hrange|]. intros i Hi. simpl.
    destruct (list_getitem_in_range _ i Hi) as (lr & -> & Hlook).
    exists (transpose01 lr). split; [done|].
    apply list_elem_of_lookup_2 in Hlook.
    eapply Forall_forall in Hlayers; [|exact Hlook].
    by apply (shape_of_rows_transpose shape1 1 2). }
  assert (teacher_target E self tres = stack_dim1 hiddens) as ->.
  { unfold teacher_target. fold ids.
    change (comprehension
              (fun i => lr ← list_getitem (t_layer_results tres) i;
                        mret (transpose01 lr)) ids
            ≫= stack_dim1 = stack_dim1 hiddens).
    by rewrite Hcomp. }
  assert (hiddens <> []) as Hhne.
  { intros ->. destruct ids; [done|discriminate]. }
  assert (shape_of_rows shape3 3 hiddens
          = Some [length ids; B; T; D]) as Hstack.
  { apply shape_of_rows_nonempty; [done|]. by rewrite Hlen. }
  exists (transpose01 hiddens). split.
  - unfold stack_dim1. destruct hiddens as [|h rest]; [done|].
    apply Forall_cons in Hshapes as [-> Hrest].
    assert (forallb (fun t' => bool_decide (shape3 t' = Some [B; T; D])) rest
            = true) as ->; [|done].
    apply forallb_forall. intros t' Hin%list_elem_of_In.
    apply bool_decide_eq_true. by eapply Forall_forall in Hrest.
  - apply (shape_of_rows_transpose shape2 2 3); [done| |done].
    destruct ids; [done|simpl; lia].
Qed.

(** The run of [calculate_loss] on well-shaped inputs. *)
Lemma calculate_loss_returns_one_term_per_layer_aux
    self sr tres labels tr T B D :
  task_agnostic self = true ->
  (0 < cosine_weight (train (yaml_cfg_of self)))%Q ->
  well_shaped E self sr tres T B D ->
  exists target diff,
    teacher_target E self tres = Ok target /\
    l1_loss_none (s_projections sr) target = Ok diff /\
    let sim := sim_loss_none E (s_projections sr) target in
    calculate_loss E self sr tres labels tr
      = (tr, Ok (PTensor0 (meanQ (flat4 diff)
                           + cosine_weight (train (yaml_cfg_of self))
                             * meanQ (flat3 sim))%Q,
                 PTensor1 (zip_with Qplus (mean_023 diff) (mean_02 sim)))) /\
    length (mean_023 diff)
      = length (pred_layer_id E (student_model self)) /\
    length (mean_02 sim) = length (pred_layer_id E (student_model self)).
Proof.
  intros Hta Hw Hws.
  destruct (teacher_target_well_shaped self sr tres T B D Hws)
    as (target & Htarget & Hshape).
  destruct Hws as (_ & _ & _ & _ & HB & Hproj).
  set (n := length (pred_layer_id E (student_model self))) in *.
  destruct (shape4_rows _ _ _ _ Hproj) as [Hplen Hprows].
  destruct (shape4_rows _ _ _ _ Hshape) as [Htlen Htrows].
  assert (Qle_bool (cosine_weight (train (yaml_cfg_of self))) 0 = false)
    as Hwb.
  { destruct (Qle_bool _ 0) eqn:Hle; [|done].
    apply Qle_bool_iff in Hle. by apply Qle_not_lt in Hle. }
  assert (exists diff, l1_loss_none (s_projections sr) target = Ok diff /\
            length (mean_023 diff) = n) as (diff & Hdiff & Hlen1).
  { unfold l1_loss_none. rewrite Hproj, Hshape.
    rewrite bool_decide_eq_true_2 by done.
    eexists. split; [reflexivity|].
    unfold mean_023. rewrite length_map.
    by apply (length_transpose_zip_with _ _ _ B n). }
  assert (length (mean_02 (sim_loss_none E (s_projections sr) target)) = n)
    as Hlen2.
  { unfold mean_02, sim_loss_none. rewrite length_map.
    by apply (length_transpose_zip_with _ _ _ B n). }
  exists target, diff. split; [done|]. split; [done|]. cbv zeta.
  split; [|done].
  unfold calculate_loss.
  rewrite run_bind, run_lift, regression_and_cosine_target, Htarget.
  rewrite rbind_ok, Hdiff, rbind_ok. cbv zeta. rewrite Hwb.
  cbn [negb]. cbv beta iota. unfold py_mul, py_add at 1. cbv beta iota.
  rewrite !rbind_ok. unfold mret at 1, result_ret.
  cbv beta iota. cbn [rec_layer_loss sim_layer_loss total_loss].
  rewrite run_bind, run_lift. unfold torch_add, py_add. cbv beta iota.
  rewrite Hlen1, Hlen2, Nat.eqb_refl, Hta. cbn [negb]. cbv beta iota.
  by rewrite run_bind, !run_ret.
Qed.

(** X15: on well-shaped inputs, in task-agnostic mode with a positive
    cosine weight, [calculate_loss] returns: a scalar total and a
    one-dimensional tensor with exactly one entry per predicted layer
    (negative layer ids counting from the last layer), and the trace is
    left as it was. *)
Theorem calculate_loss_returns_one_term_per_layer
    self sr tres labels tr T B D :
  task_agnostic self = true ->
  (0 < cosine_weight (train (yaml_cfg_of self)))%Q ->
  well_shaped E self sr tres T B D ->
  exists total v,
    calculate_loss E self sr tres labels tr
      = (tr, Ok (PTensor0 total, PTensor1 v)) /\
    length v = length (pred_layer_id E (student_model self)).
Proof.
  intros Hta Hw Hws.
  destruct (calculate_loss_returns_one_term_per_layer_aux self sr tres labels
              tr T B D Hta Hw Hws)
    as (target & diff & _ & _ & Hrun & Hlen1 & Hlen2).
  cbv zeta in Hrun, Hlen2. eexists _, _. split; [exact Hrun|].
  rewrite length_zip_with, Hlen1, Hlen2. lia.
Qed.

End LossShapes.

Lemma log_losses_trace (ls : list Q) : forall i tr,
  log_losses i ls tr
  = (tr ++ map (fun j => EvLog ("loss" +:+ pretty (S j))) (seq i (length ls)),
     Ok tt).
Proof.
  induction ls as [|l ls IH]; intros i tr; simpl.
  - by rewrite app_nil_r.
  - rewrite run_bind, run_emit, IH. by rewrite <- app_assoc.
Qed.

Section StepsOnWellShaped.

Context (E : Collaborators).
Implicit Types (self : W2V2Distil E) (sr : student_results)
  (tres : teacher_results) (b : batch).

(** X16: on a batch without a ["labels"] entry whose forward passes
    succeed with well-shaped outputs, in task-agnostic mode with a
    positive cosine weight, the training step returns the scalar total and, when [monitor_losses] is
    on, logs exactly one value per predicted layer, under the names
    [loss1], [loss2], ... in layer order (none when it is off); the
    validation step returns the same total and logs [v_loss]. *)
Theorem steps_on_well_shaped_batch self b sr tres tr T B D :
  task_agnostic self = true ->
  (0 < cosine_weight (train (yaml_cfg_of self)))%Q ->
  b_labels b = None ->
  extract_features E (teacher_model self) (b_x b) (b_padding_mask b)
    = Ok tres ->
  student_call E (student_model self) (b_x b) (b_padding_mask b) = Ok sr ->
  well_shaped E self sr tres T B D ->
  exists total,
    training_step E self b tr
    = (tr ++ [EvTeacherForward; EvStudentForward]
          ++ (if monitor_losses (train (yaml_cfg_of self))
              then map (fun j => EvLog ("loss" +:+ pretty (S j)))
                     (seq 0 (length (pred_layer_id E (student_model self))))
              else []),
       Ok (PTensor0 total)) /\
    validation_step E self b tr
    = (tr ++ [EvTeacherForward; EvStudentForward; EvLog "v_loss"],
       Ok (PTensor0 total)).
Proof.
  intros Hta Hw Hnolabels Hteacher Hstudent Hws.
  assert (forall tr0, call_self E self b tr0
          = (tr0 ++ [EvTeacherForward; EvStudentForward], Ok (sr, tres)))
    as Hfwd.
  { intros tr0. unfold call_self, forward. rewrite Hnolabels.
    rewrite !run_bind, run_emit, !run_bind, run_lift, Hteacher.
    rewrite !run_bind, run_emit, !run_bind, run_lift, Hstudent, run_ret.
    by rewrite <- app_assoc. }
  destruct (calculate_loss_returns_one_term_per_layer_aux E self sr tres None
              (tr ++ [EvTeacherForward; EvStudentForward]) T B D Hta Hw Hws)
    as (target & diff & _ & _ & Hloss & Hlen1 & Hlen2).
  cbv zeta in Hloss, Hlen2.
  assert (length (zip_with Qplus (mean_023 diff)
                    (mean_02 (sim_loss_none E (s_projections sr) target)))
          = length (pred_layer_id E (student_model self))) as Hlen
    by (rewrite length_zip_with, Hlen1, Hlen2; lia).
  eexists. split.
  - unfold training_step. rewrite run_bind, Hfwd, run_bind.
    unfold call_calculate_loss. rewrite Hta. cbn [negb]. cbv beta iota.
    rewrite Hloss, run_bind.
    destruct (monitor_losses (train (yaml_cfg_of self))).
    + rewrite run_bind, run_lift. cbn [py_iter]. cbv beta iota.
      rewrite log_losses_trace, run_ret, Hlen. by rewrite <- app_assoc.
    + rewrite !run_ret. by rewrite app_nil_r.
  - unfold validation_step. rewrite run_bind, Hfwd, run_bind.
    unfold call_calculate_loss. rewrite Hta. cbn [negb]. cbv beta iota.
    rewrite Hloss. cbv beta iota.
    rewrite run_bind, run_ret. cbv beta iota.
    rewrite run_bind, run_emit. cbv beta iota. rewrite run_ret.
    by rewrite <- app_assoc.
Qed.

End StepsOnWellShaped.

(** * The metrics in the validation and test steps *)

Section MetricsNeverFed.

Context (E : Collaborators).
Implicit Types (self : W2V2Distil E) (sr : student_results)
  (tres : teacher_results) (b : batch).

Lemma keeps_calculate_loss_no_accumulation self sr tres labels :
  keeps (fun ev => accumulates ev = false)
    (calculate_loss E self sr tres labels).
Proof.
  unfold calculate_loss.
  apply keeps_bind; [apply keeps_lift|intros terms].
  apply keeps_bind; [apply keeps_lift|intros losses].
  apply keeps_bind; [|intros ?; apply keeps_ret].
  destruct (negb (task_agnostic self)); [|apply keeps_ret].
  apply keeps_bind; [|intros ?; apply keeps_lift].
  unfold ctc_branch.
  apply keeps_bind; [by apply keeps_emit|intros _].
  apply keeps_bind.
  - destruct (use_gt_for_ctc _).
    + apply keeps_bind; [by apply keeps_emit|intros _].
      destruct labels; [apply keeps_lift|by intros tr Htr].
    + apply keeps_bind; [by apply keeps_emit|intros _].
      apply keeps_bind; [apply keeps_lift|intros ?; apply keeps_ret].
  - intros [target lens].
    apply keeps_bind; [by apply keeps_emit|intros _]. apply keeps_lift.
Qed.

Lemma keeps_call_calculate_loss_no_accumulation self b sr tres :
  keeps (fun ev => accumulates ev = false)
    (call_calculate_loss E self b sr tres).
Proof.
  unfold call_calculate_loss. destruct (negb (task_agnostic self)).
  - apply keeps_bind; [apply keeps_lift|intros labels].
    apply keeps_calculate_loss_no_accumulation.
  - apply keeps_calculate_loss_no_accumulation.
Qed.

Lemma keeps_forward_no_accumulation self x mask :
  keeps (fun ev => accumulates ev = false) (forward E self x mask).
Proof.
  unfold forward.
  apply keeps_bind; [by apply keeps_emit|intros _].
  apply keeps_bind; [apply keeps_lift|intros ?].
  apply keeps_bind; [by apply keeps_emit|intros _].
  apply keeps_bind; [apply keeps_lift|intros ?]. apply keeps_ret.
Qed.

(** X17: the error-rate metrics are never fed. In neither mode does a
    validation or test step reach the argmax, the decoder or
    [add_batch]: in task-agnostic mode the branch is skipped, and in
    task-specific mode the step has raised before it (on the call of
    [self], on the lookup of the labels, or in [calculate_loss]). *)
Theorem validation_and_test_steps_never_accumulate self b tr :
  Forall (fun ev => accumulates ev = false) tr ->
  Forall (fun ev => accumulates ev = false) (validation_step E self b tr).1 /\
  Forall (fun ev => accumulates ev = false) (test_step E self b tr).1.
Proof.
  intros Htr.
  assert (Forall (fun ev => accumulates ev = false) (call_self E self b tr).1)
    as Hfwd.
  { unfold call_self. destruct (b_labels b); [done|].
    by apply keeps_forward_no_accumulation. }
  unfold validation_step, test_step. rewrite !run_bind.
  destruct (call_self E self b tr)
    as [tr0 [[sr tres]|e]]; [|done].
  simpl in Hfwd.
  pose proof (keeps_call_calculate_loss_no_accumulation self b sr tres
                tr0 Hfwd) as Hcall.
  rewrite !run_bind.
  destruct (call_calculate_loss E self b sr tres tr0)
    as [tr1 [[total losses]|e]] eqn:Hrun; [|done].
  simpl in Hcall.
  apply call_calculate_loss_ok_inv in Hrun as (Hta & -> & _ & t & v & -> & ->).
  rewrite Hta. cbn [negb]. cbv beta iota. split.
  - rewrite run_bind, run_ret. cbv beta iota.
    rewrite run_bind, run_emit. cbv beta iota. rewrite run_ret. simpl.
    apply Forall_app. split; [done|by repeat constructor].
  - rewrite run_bind, run_lift. cbn [fst snd].
    rewrite py_sum_total_layers. cbv beta iota.
    rewrite run_bind, run_ret. cbv beta iota.
    rewrite run_bind, run_emit. cbv beta iota. rewrite run_ret. simpl.
    apply Forall_app. split; [done|by repeat constructor].
Qed.

End MetricsNeverFed.

(** * Instances of the further properties at the sample setting *)

Lemma resolve_depends_on_required_keys_only_witness :
  resolve_student_config (sample_E true) sample_teacher_cfg true
    sample_distiller
  = resolve_student_config (sample_E true) sample_teacher_cfg true
      sample_distiller_extra.
Proof.
  apply (resolve_depends_on_required_keys_only (sample_E true)).
  apply required_keys_cases; vm_compute; reflexivity.
Defined.

Lemma update_student_config_reports_first_missing_key_witness :
  update_student_config true sample_distiller_two_missing ∅
  = Raise (KeyError "tr_layer_index").
Proof.
  apply (update_student_config_reports_first_missing_key true
           sample_distiller_two_missing ∅
           ["encoder_layers"; "enable_tr_layer"; "type_of_tr_layer"]
           ["init_conv_layers"; "init_encoder_layers"; "pred_head_inter_dim";
            "pred_head_final_dim"; "pred_layer_id"]
           "tr_layer_index").
  - reflexivity.
  - intros k' Hk'.
    repeat (apply elem_of_cons in Hk' as [->|Hk']; [vm_compute; eauto|]).
    by apply elem_of_nil in Hk'.
  - vm_compute. reflexivity.
Defined.

Lemma update_student_config_idempotent_witness :
  update_student_config true sample_distiller sample_resolved
  = Ok sample_resolved.
Proof.
  apply (update_student_config_idempotent true sample_distiller
           sample_teacher_cfg sample_resolved).
  vm_compute. reflexivity.
Defined.

Lemma resolved_attribute_names_witness :
  is_Some (sample_resolved !! "tr_layer_floor") <->
  "tr_layer_floor" ∈ assigned_attrs \/
  is_Some (CustomStudentModelConfig (sample_E true) !! "tr_layer_floor") \/
  (is_Some (sample_teacher_cfg !! "tr_layer_floor") /\
   "tr_layer_floor" ∈ get_all_attributes (sample_E true)
                        (CustomStudentModelConfig (sample_E true))).
Proof.
  apply (resolved_attribute_names (sample_E true) sample_teacher_cfg
           sample_distiller_extra sample_resolved true).
  vm_compute. reflexivity.
Defined.

Lemma init_module_consistent_witness :
  student_config sample_model !! "teacher_task_agnostic"
    = Some (VBool (task_agnostic sample_model)) /\
  student_config sample_model !! "pred_layer_id"
    = distiller (sample_cfg (1 # 2) true "1e-4") !! "pred_layer_id" /\
  is_Some (distiller (sample_cfg (1 # 2) true "1e-4") !! "pred_layer_id") /\
  CustomStudentModel (sample_E true) (student_config sample_model)
    (teacher_model sample_model) = Ok (student_model sample_model) /\
  yaml_cfg_of sample_model = sample_cfg (1 # 2) true "1e-4" /\
  init_events (sample_cfg (1 # 2) true "1e-4")
    = init_events (sample_cfg (1 # 2) true "1e-4").
Proof.
  apply (init_module_consistent (sample_E true)
           (sample_cfg (1 # 2) true "1e-4")
           (init_events (sample_cfg (1 # 2) true "1e-4")) sample_model).
  vm_compute. reflexivity.
Defined.

Lemma gt_target_tokens_in_range_witness :
  Forall (fun t => 4 <= t <= 31) [19; 7; 6; 11; 5; 15; 15; 8] /\
  [3; 5]%nat = map String.length ["CAT"; "HELLO"] /\
  length [19; 7; 6; 11; 5; 15; 15; 8] = sum_list [3; 5]%nat.
Proof.
  apply (gt_target_tokens_in_range ["CAT"; "HELLO"]).
  vm_compute. reflexivity.
Defined.

Lemma gt_target_injective_witness :
  ["CAT"; "HELLO"] = ["CAT"; "HELLO"].
Proof.
  apply (gt_target_injective ["CAT"; "HELLO"] ["CAT"; "HELLO"]
           ([19; 7; 6; 11; 5; 15; 15; 8], [3; 5]%nat));
    vm_compute; reflexivity.
Defined.

Lemma steps_return_only_task_agnostic_positive_weight_witness :
  task_agnostic (sample_self true (1 # 2) true) = true /\
  (0 < cosine_weight (train (yaml_cfg_of (sample_self true (1 # 2) true))))%Q.
Proof.
  apply (steps_return_only_task_agnostic_positive_weight (sample_E true)
           (sample_self true (1 # 2) true) (sample_batch None) []
           [EvTeacherForward; EvStudentForward; EvLog "v_loss"]
           (PTensor0 (81600000 # 144000000))).
  right. left. vm_compute. reflexivity.
Defined.

Lemma configure_optimizers_zero_division_witness :
  configure_optimizers (sample_E true) sample_self_no_gpus []
  = ([] ++ [EvEvalLearningRate; EvBuildOptimizer], Raise ZeroDivisionError).
Proof.
  apply (configure_optimizers_zero_division (sample_E true)
           sample_self_no_gpus [] (1 # 10000)).
  - vm_compute. reflexivity.
  - vm_compute. reflexivity.
  - vm_compute. reflexivity.
  - left. reflexivity.
Defined.


Lemma calculate_loss_bad_layer_ids_witness :
  calculate_loss (sample_E true) sample_self_layer_twelve
    sample_student_results sample_teacher_twelve None []
  = ([], Raise IndexError).
Proof.
  apply (calculate_loss_bad_layer_ids (sample_E true)
           sample_self_layer_twelve sample_student_results
           sample_teacher_twelve None []).
  apply Exists_cons_tl, Exists_cons_tl, Exists_cons_hd.
  unfold index_in_range. simpl. lia.
Defined.

Lemma sample_well_shaped :
  well_shaped (sample_E true) (sample_self true (1 # 2) true)
    sample_student_results sample_teacher_results 1 2 2.
Proof.
  unfold well_shaped. split; [discriminate|]. split.
  { repeat constructor; unfold index_in_range; simpl; lia. }
  split; [by repeat constructor|].
  split; [lia|]. split; [lia|]. reflexivity.
Defined.

Lemma calculate_loss_returns_one_term_per_layer_witness :
  exists total v,
    calculate_loss (sample_E true) (sample_self true (1 # 2) true)
      sample_student_results sample_teacher_results None []
    = ([], Ok (PTensor0 total, PTensor1 v)) /\
    length v = 3%nat.
Proof.
  apply (calculate_loss_returns_one_term_per_layer (sample_E true)
           (sample_self true (1 # 2) true) sample_student_results
           sample_teacher_results None [] 1 2 2).
  - reflexivity.
  - reflexivity.
  - exact sample_well_shaped.
Defined.

Lemma steps_on_well_shaped_batch_witness :
  exists total,
    training_step (sample_E true) (sample_self true (1 # 2) true)
      (sample_batch None) []
    = ([EvTeacherForward; EvStudentForward;
        EvLog "loss1"; EvLog "loss2"; EvLog "loss3"],
       Ok (PTensor0 total)) /\
    validation_step (sample_E true) (sample_self true (1 # 2) true)
      (sample_batch None) []
    = ([EvTeacherForward; EvStudentForward; EvLog "v_loss"],
       Ok (PTensor0 total)).
Proof.
  apply (steps_on_well_shaped_batch (sample_E true)
           (sample_self true (1 # 2) true) (sample_batch None)
           sample_student_results sample_teacher_results [] 1 2 2).
  - reflexivity.
  - reflexivity.
  - reflexivity.
  - reflexivity.
  - reflexivity.
  - exact sample_well_shaped.
Defined.

Lemma validation_and_test_steps_never_accumulate_witness :
  Forall (fun ev => accumulates ev = false)
    (validation_step (sample_E false) (sample_self false (1 # 2) true)
       (sample_batch (Some ["CAT"; "HELLO"])) []).1 /\
  Forall (fun ev => accumulates ev = false)
    (test_step (sample_E false) (sample_self false (1 # 2) true)
       (sample_batch (Some ["CAT"; "HELLO"])) []).1.
Proof.
  apply (validation_and_test_steps_never_accumulate (sample_E false)
           (sample_self false (1 # 2) true)
           (sample_batch (Some ["CAT"; "HELLO"])) []).
  constructor.
Defined.

(** * The arguments of the CTC loss *)

Section CtcArguments.

Context (E : Collaborators).
Implicit Types (self : W2V2Distil E) (sr : student_results)
  (tres : teacher_results).


End CtcArguments.

